(** * Rare Bird Sighting Alerts: a shallow embedding of [bird_notifier.py]

    The script is one linear pipeline, fetch -> filter -> format -> send,
    run once per invocation by [BirdNotifier.run].  This development
    embeds the pipeline as Rocq functions and proves the properties the
    specification states about it.

    Conventions.
    - A Python [str] is a list of Unicode code points ([list N]).
    - A sighting is the [dict] decoded from one JSON object: a finite map
      from keys to JSON values.
    - Effects (printing, the HTTP request, the SMTP session) are recorded
      as a trace of events; exceptions are an explicit [Raise] result.
    - The outside world (process environment, HTTP server, SMTP server) is
      a record of oracles; the Python library functions whose algorithms
      are not part of the script ([int], [repr] of floats and containers,
      [datetime.fromisoformat], [strftime]) are a type class. *)

From Stdlib Require Import ZArith NArith String Ascii Floats.
From stdpp Require Import base option list gmap pretty.

(** ** Python strings *)

Abbreviation pystr := (list N) (only parsing).

(** The code points of an ASCII literal. *)
Definition lit (s : string) : pystr := N_of_ascii <$> list_ascii_of_string s.

(** [ord(c)] of an ASCII character. *)
Definition ord (c : ascii) : N := N_of_ascii c.

(** The double quote character, U+0022. *)
Definition dq : pystr := [34%N].

Module Str.

(** [str.isspace] on one code point: the characters CPython's
    [_PyUnicode_IsWhitespace] accepts. *)
Definition isspace (c : N) : bool :=
  ((9 <=? c) && (c <=? 13) || (28 <=? c) && (c <=? 32)
   || (c =? 133) || (c =? 160) || (c =? 5760)
   || (8192 <=? c) && (c <=? 8202)
   || (c =? 8232) || (c =? 8233) || (c =? 8239) || (c =? 8287)
   || (c =? 12288))%N.

Fixpoint lstrip (s : pystr) : pystr :=
  match s with
  | c :: s' => if isspace c then lstrip s' else s
  | [] => []
  end.

Definition rstrip (s : pystr) : pystr := reverse (lstrip (reverse s)).

(** [s.strip()] *)
Definition strip (s : pystr) : pystr := rstrip (lstrip s).

(** [s.split(sep)] for a separator of one character. *)
Fixpoint split (sep : N) (s : pystr) : list (list N) :=
  match s with
  | [] => [[]]
  | c :: s' =>
      if (c =? sep)%N then [] :: split sep s'
      else match split sep s' with
           | p :: ps => (c :: p) :: ps
           | [] => [[c]]
           end
  end.

(** [sep.join(parts)] *)
Fixpoint join (sep : pystr) (parts : list (list N)) : pystr :=
  match parts with
  | [] => []
  | [p] => p
  | p :: ps => p ++ sep ++ join sep ps
  end.

(** [s.replace(old, new)] for a pattern [old] of one character. *)
Definition replace (old : N) (new : pystr) (s : pystr) : pystr :=
  s ≫= (λ c, if (c =? old)%N then new else [c]).

(** [str(n)] for an [int]. *)
Definition of_Z (z : Z) : pystr := lit (pretty z).

End Str.

(** ** JSON values and sightings *)

#[warnings="-register-all"]
Inductive json :=
| JNull
| JBool (b : bool)
| JInt (z : Z)
| JFloat (f : float)
| JStr (s : list N)
| JList (l : list json)
| JDict (d : gmap (list N) json).

(** One element of the upstream response, [Dict] in the annotations. *)
Abbreviation sighting := (gmap (list N) json) (only parsing).

(** [d.get(key, default)] *)
Definition get (d : sighting) (key : pystr) (default_ : json) : json :=
  default default_ (d !! key).

(** ** Exceptions, results and traces *)

(** An instance of (a subclass of) [Exception]: its class name and its
    [str()]. *)
Record exn := Exn { exn_class : string; exn_str : list N }.

Inductive result (A : Type) :=
| Ok (a : A)
| Raise (e : exn).
Arguments Ok {A} a.
Arguments Raise {A} e.

(** ** The effect monad

    A computation yields the events it performed, in order, and either a
    value or the exception that escaped it. *)

Inductive smtp_op :=
| SmtpConnect (host : list N) (port : Z)
| SmtpStarttls
| SmtpLogin (user password : list N)
| SmtpSendMessage (msg_from msg_to msg_subject html_body : list N)
| SmtpQuit.

Record request := Request {
  url : list N;
  headers : list (list N * option (list N));
  params : list (list N * json);
  timeout : Z
}.

Inductive event :=
| Printed (line : list N)
| HttpGet (r : request)
| Smtp (op : smtp_op) (err : option exn).

Definition M (A : Type) : Type := list event * result A.

Definition ret {A} (a : A) : M A := ([], Ok a).

Definition bind {A B} (m : M A) (k : A → M B) : M B :=
  match m with
  | (t, Ok a) => let '(t', r) := k a in (t ++ t', r)
  | (t, Raise e) => (t, Raise e)
  end.

Definition raise {A} (e : exn) : M A := ([], Raise e).

(** [try: body / except Exception as e: handler e] *)
Definition try_except {A} (body : M A) (handler : exn → M A) : M A :=
  match body with
  | (t, Ok a) => (t, Ok a)
  | (t, Raise e) => let '(t', r) := handler e in (t ++ t', r)
  end.

Definition lift {A} (r : result A) : M A := ([], r).

(** [print(line)] *)
Definition print (line : pystr) : M unit := ([Printed line], Ok tt).

Declare Scope py_scope.
Delimit Scope py_scope with py.
Notation "'let*' x := m 'in' k" := (bind m (λ x, k))
  (at level 10, x name, m at level 100, k at level 200) : py_scope.
Notation "m >> k" := (bind m (λ _, k))
  (at level 100, k at level 200, right associativity) : py_scope.
Local Open Scope py_scope.

Definition trace {A} (m : M A) : list event := fst m.
Definition outcome {A} (m : M A) : result A := snd m.


(** ** The Python runtime

    Library functions the script calls and whose algorithms are not its
    own.  A failing call is a [Raise]. *)

Record datetime := Datetime {
  year : Z; month : Z; day : Z;
  hour : Z; minute : Z; second : Z; microsecond : Z;
  utcoffset : option Z   (* seconds east of UTC; [None] for a naive value *)
}.

Class PyLib := {
  (** [int(s)] on a string *)
  int_of_str : list N → result Z;
  (** [repr(x)] of a float, which is also its [str()] *)
  repr_float : float → list N;
  (** [str(v)] of a list or a dict *)
  str_container : json → list N;
  (** [datetime.fromisoformat(s)] *)
  fromisoformat : list N → result datetime;
  (** [dt.strftime(fmt)] *)
  strftime : datetime → list N → list N
}.

(** ** The outside world *)

Record response := Response {
  status_code : Z;
  (** what [raise_for_status()] raises when the status is an error *)
  http_error : exn;
  (** [response.json()]; the endpoint answers with a JSON array of
      objects, the [List[Dict]] of the annotations *)
  json_body : result (list (gmap (list N) json))
}.

Record world := World {
  (** [os.environ] *)
  environ : gmap (list N) (list N);
  (** [requests.get]: a transport failure, or the response received *)
  requests_get : request → result response;
  (** each call on the SMTP session: [None] when it succeeds, [Some e]
      when it raises [e] *)
  smtp : smtp_op → option exn
}.

(** ** The notifier *)

(** The fields [__init__] sets. *)
Record BirdNotifier := {
  ebird_api_key : option (list N);
  base_url : list N;
  latitude : float;
  longitude : float;
  radius_km : Z;
  days_back : Z
}.

(** [len(l)] *)
Definition len {A} (l : list A) : Z := Z.of_nat (length l).

(** [v != 1] on a JSON value: [True == 1] and [1.0 == 1] hold in Python. *)
Definition ne_one (v : json) : bool :=
  match v with
  | JInt z => negb (z =? 1)%Z
  | JBool b => negb b
  | JFloat f => negb (PrimFloat.eqb f 1%float)
  | _ => true
  end.

(** The truth value of an optional string: neither [None] nor empty.
    Gives the string back when it is true. *)
Definition truthy (o : option (list N)) : option (list N) :=
  match o with
  | Some (c :: s) => Some (c :: s)
  | _ => None
  end.

Section Notifier.

Context `{PyLib}.
Context (w : world).

(** What an f-string puts for [{v}]: [str(v)]. *)
Definition fmt (v : json) : pystr :=
  match v with
  | JNull => lit "None"
  | JBool true => lit "True"
  | JBool false => lit "False"
  | JInt z => Str.of_Z z
  | JFloat f => repr_float f
  | JStr s => s
  | JList _ | JDict _ => str_container v
  end.

(** [os.getenv(key)] and [os.getenv(key, default)] *)
Definition getenv (key : pystr) : option (list N) := environ w !! key.
Definition getenv_or (key default_ : pystr) : pystr :=
  default default_ (environ w !! key).

(** [requests.get(url, headers=..., params=..., timeout=...)] *)
Definition http_get (r : request) : M response :=
  ([HttpGet r], requests_get w r).

(** [response.raise_for_status()] *)
Definition raise_for_status (r : response) : M unit :=
  if ((400 <=? status_code r) && (status_code r <? 600))%Z
  then raise (http_error r) else ret tt.

(** One call on the SMTP session. *)
Definition smtp_call (op : smtp_op) : M unit :=
  ([Smtp op (smtp w op)],
   match smtp w op with None => Ok tt | Some e => Raise e end).

Definition get_notable_sightings (self : BirdNotifier)
  : M (list (gmap (list N) json)) :=
  try_except
    (let url := base_url self ++ lit "/data/obs/geo/recent/notable" in
     let headers := [(lit "x-ebirdapitoken", ebird_api_key self)] in
     let params :=
       [(lit "lat", JFloat (latitude self));
        (lit "lng", JFloat (longitude self));
        (lit "dist", JInt (radius_km self));
        (lit "back", JInt (days_back self));
        (lit "detail", JStr (lit "full"))] in
     let* response := http_get (Request url headers params 10) in
     let* _ := raise_for_status response in
     let* sightings := lift (json_body response) in
     print (lit "Found " ++ Str.of_Z (len sightings)
            ++ lit " notable bird sightings") >>
     ret sightings)
    (λ e,
     print (lit "Error fetching bird sightings: " ++ exn_str e) >>
     ret []).

Definition filter_new_sightings (self : BirdNotifier)
    (sightings : list (gmap (list N) json)) : list (gmap (list N) json) :=
  sightings.

(** The [try]/[except] around the date of one sighting.  A value that is
    not a string has no [replace]: the [AttributeError] is caught like a
    parse failure. *)
Definition format_date (obs_date : json) : json :=
  match obs_date with
  | JStr s =>
      match fromisoformat (Str.replace (ord "Z") (lit "+00:00") s) with
      | Ok dt => JStr (strftime dt (lit "%Y-%m-%d %H:%M"))
      | Raise _ => obs_date
      end
  | _ => obs_date
  end.

(** The text the loop body appends for one sighting. *)
Definition sighting_html (sighting : gmap (list N) json) : pystr :=
  let species_name := get sighting (lit "comName") (JStr (lit "Unknown species")) in
  let scientific_name := get sighting (lit "sciName") (JStr []) in
  let location := get sighting (lit "locName") (JStr (lit "Unknown location")) in
  let obs_date := get sighting (lit "obsDt") (JStr []) in
  let how_many := get sighting (lit "howMany") (JInt 1) in
  let lat := get sighting (lit "lat") (JInt 0) in
  let lng := get sighting (lit "lng") (JInt 0) in
  let formatted_date := format_date obs_date in
  let maps_url :=
    lit "https://www.google.com/maps?q=" ++ fmt lat ++ lit "," ++ fmt lng in
    lit "
                <div style="
    ++ dq
    ++ lit "background: #f9f9f9; border-left: 4px solid #4CAF50; padding: 15px; margin: 15px 0; border-radius: 5px;"
    ++ dq
    ++ lit ">
                    <h3 style="
    ++ dq ++ lit "color: #333; margin: 0 0 10px 0;" ++ dq ++ lit ">"
    ++ fmt species_name
    ++ lit "</h3>
                    <p style="
    ++ dq ++ lit "color: #666; font-style: italic; margin: 5px 0;" ++ dq
    ++ lit ">" ++ fmt scientific_name
    ++ lit "</p>
                    <p style="
    ++ dq ++ lit "margin: 5px 0;" ++ dq ++ lit "><strong>"
    ++ [63743; 252; 236; 231]%N ++ lit " Location:</strong> " ++ fmt location
    ++ lit "</p>
                    <p style="
    ++ dq ++ lit "margin: 5px 0;" ++ dq ++ lit "><strong>"
    ++ [63743; 252; 239; 234]%N ++ lit " When:</strong> "
    ++ fmt formatted_date
    ++ lit "</p>
                    <p style="
    ++ dq ++ lit "margin: 5px 0;" ++ dq ++ lit "><strong>"
    ++ [63743; 252; 238; 162]%N ++ lit " Count:</strong> " ++ fmt how_many
    ++ lit " individual" ++ (if ne_one how_many then lit "s" else [])
    ++ lit "</p>
                    <p style="
    ++ dq ++ lit "margin: 10px 0;" ++ dq
    ++ lit ">
                        <a href="
    ++ dq ++ maps_url ++ dq ++ lit " style=" ++ dq
    ++ lit "background: #4CAF50; color: white; padding: 8px 16px; text-decoration: none; border-radius: 5px; display: inline-block;"
    ++ dq
    ++ lit ">
                            "
    ++ [63743; 252; 236; 231]%N
    ++ lit " View on Map
                        </a>
                        <a href="
    ++ dq ++ lit "https://ebird.org/map" ++ dq ++ lit " style=" ++ dq
    ++ lit "background: #2196F3; color: white; padding: 8px 16px; text-decoration: none; border-radius: 5px; display: inline-block; margin-left: 10px;"
    ++ dq
    ++ lit ">
                            "
    ++ [63743; 252; 234; 182]%N
    ++ lit " View on eBird
                        </a>
                    </p>
                </div>
            ".

(** The text before the loop. *)
Definition header_html (self : BirdNotifier)
    (sightings : list (gmap (list N) json)) : pystr :=
    lit "
        <html>
        <body style="
    ++ dq ++ lit "font-family: Arial, sans-serif;" ++ dq
    ++ lit ">
            <h2 style="
    ++ dq ++ lit "color: #4CAF50;" ++ dq ++ lit ">"
    ++ [63743; 252; 234; 182]%N
    ++ lit " Rare Bird Sightings Alert!</h2>
            <p><strong>"
    ++ Str.of_Z (len sightings) ++ lit " notable bird"
    ++ (if (1 <? len sightings)%Z then lit "s" else [])
    ++ lit " spotted within " ++ Str.of_Z (radius_km self)
    ++ lit "km of your location!</strong></p>
            <p style="
    ++ dq ++ lit "color: #666;" ++ dq ++ lit "><em>M" ++ [8730; 167]%N
    ++ lit "rsta, Stockholm area</em></p>
            
            <div style="
    ++ dq ++ lit "margin: 20px 0;" ++ dq
    ++ lit ">
        ".

(** The text after the loop. *)
Definition footer_html : pystr :=
  lit "
            </div>
            
            <div style="
  ++ dq
  ++ lit "background: #e8f5e9; padding: 15px; border-radius: 5px; margin-top: 20px;"
  ++ dq
  ++ lit ">
                <h3 style="
  ++ dq ++ lit "color: #2e7d32;" ++ dq ++ lit ">"
  ++ [63743; 252; 238; 231]%N
  ++ lit " Birding Tips:</h3>
                <ul style="
  ++ dq ++ lit "color: #333;" ++ dq
  ++ lit ">
                    <li>Bring binoculars and a field guide</li>
                    <li>Visit early morning (5-9 AM) or late afternoon (4-7 PM)</li>
                    <li>Be quiet and patient</li>
                    <li>Check weather conditions before going</li>
                    <li>Respect private property and wildlife</li>
                </ul>
            </div>
            
            <p style="
  ++ dq ++ lit "margin-top: 20px; color: #666; font-size: 0.9em;" ++ dq
  ++ lit ">
                <em>Happy birding! "
  ++ [63743; 252; 234; 182]%N
  ++ lit " Data from eBird</em>
            </p>
        </body>
        </html>
        ".

Definition _format_email_body (self : BirdNotifier)
    (sightings : list (gmap (list N) json)) : pystr :=
  let html := header_html self sightings in
  let html :=
    foldl (λ html sighting, html ++ sighting_html sighting)
          html (take 10 sightings) in
  let html := html ++ footer_html in
  html.

(** Line 100: the recipients, split and trimmed. *)
Definition receiver_list (receiver_emails : pystr) : list (list N) :=
  Str.strip <$> Str.split (ord ",") receiver_emails.

Definition send_email_notification (self : BirdNotifier)
    (sightings : list (gmap (list N) json)) : M unit :=
  let smtp_server := getenv_or (lit "SMTP_SERVER") (lit "smtp.gmail.com") in
  let* smtp_port := lift (int_of_str (getenv_or (lit "SMTP_PORT") (lit "587"))) in
  let sender_email := getenv (lit "SENDER_EMAIL") in
  let sender_password := getenv (lit "SENDER_PASSWORD") in
  let receiver_emails := getenv (lit "RECEIVER_EMAIL") in
  match truthy sender_email, truthy sender_password, truthy receiver_emails with
  | Some sender_email, Some sender_password, Some receiver_emails =>
      match sightings with
      | [] => print (lit "No sightings to notify about")
      | _ :: _ =>
          let receiver_list := receiver_list receiver_emails in
          let subject :=
            [63743; 252; 234; 182]%N ++ lit " " ++ Str.of_Z (len sightings)
            ++ lit " Rare Bird Sighting"
            ++ (if (1 <? len sightings)%Z then lit "s" else [])
            ++ lit " Alert!" in
          let body := _format_email_body self sightings in
          let msg_to := Str.join (lit ", ") receiver_list in
          try_except
            (smtp_call (SmtpConnect smtp_server smtp_port) >>
             smtp_call SmtpStarttls >>
             smtp_call (SmtpLogin sender_email sender_password) >>
             smtp_call (SmtpSendMessage sender_email msg_to subject body) >>
             smtp_call SmtpQuit >>
             print (lit "Email notification sent to "
                    ++ Str.of_Z (len receiver_list) ++ lit " recipient(s)!"))
            (λ e, print (lit "Error sending email: " ++ exn_str e))
      end
  | _, _, _ => print (lit "Email credentials not configured")
  end.

(** The dictionary [run] returns. *)
Record RunResult := {
  alert : bool;
  sightings_count : Z;
  sightings : list (gmap (list N) json)
}.

Definition run (self : BirdNotifier) : M RunResult :=
  print (lit "Checking for rare bird sightings within "
         ++ Str.of_Z (radius_km self) ++ lit "km...") >>
  print (lit "Location: " ++ repr_float (latitude self) ++ lit ", "
         ++ repr_float (longitude self)) >>
  let* sightings := get_notable_sightings self in
  match sightings with
  | [] =>
      print (lit "No notable bird sightings found") >>
      ret {| alert := false; sightings_count := 0; sightings := [] |}
  | _ :: _ =>
      let new_sightings := filter_new_sightings self sightings in
      match new_sightings with
      | _ :: _ =>
          print ([8218; 246; 176]%N ++ lit " BIRD ALERT! Found "
                 ++ Str.of_Z (len new_sightings)
                 ++ lit " new notable sightings!") >>
          send_email_notification self new_sightings >>
          ret {| alert := true;
                 sightings_count := len new_sightings;
                 sightings := new_sightings |}
      | [] =>
          print (lit "All sightings have been notified about previously") >>
          ret {| alert := false; sightings_count := 0; sightings := [] |}
      end
  end.

End Notifier.

(** ** A reference runtime

    The library functions as CPython has them, for running the notifier
    on concrete inputs.  [int] and [fromisoformat] follow CPython on
    ASCII text ([fromisoformat] with the grammar documented for
    versions 3.7 to 3.10,
    [YYYY-MM-DD[*HH[:MM[:SS[.fff[fff]]]][+HH:MM[:SS[.ffffff]]]]]);
    [strftime] knows the directives [%Y %m %d %H %M %S %%].  [repr] of a
    float is CPython's on whole numbers below [10^16] and on the
    script's default coordinates; [str] of a container is CPython's on
    the empty list and the empty dict.  Elsewhere these two give a
    placeholder, and nothing below depends on it. *)

Module CPython.

Definition digit (c : N) : option Z :=
  if ((48 <=? c) && (c <=? 57))%N then Some (Z.of_N (c - 48)) else None.

(** Exactly [n] decimal digits, and the rest of the text. *)
Fixpoint digits (n : nat) (s : pystr) : option (Z * list N) :=
  match n with
  | 0 => Some (0%Z, s)
  | S n' =>
      match s with
      | c :: s' =>
          d ← digit c;
          '(v, rest) ← digits n' s';
          Some (d * 10 ^ Z.of_nat n' + v, rest)%Z
      | [] => None
      end
  end.

Definition expect (c : N) (s : pystr) : option (list N) :=
  match s with
  | c' :: s' => if (c' =? c)%N then Some s' else None
  | [] => None
  end.

(** A run of digits in which single underscores may separate digits;
    [acc] is the value read so far. *)
Fixpoint digit_run (acc : Z) (s : pystr) : option Z :=
  match s with
  | [] => Some acc
  | c :: s' =>
      match digit c with
      | Some d => digit_run (10 * acc + d)%Z s'
      | None =>
          if (c =? ord "_")%N
          then match s' with
               | c' :: _ => _ ← digit c'; digit_run acc s'
               | [] => None
               end
          else None
      end
  end.

Definition unsigned (s : pystr) : option Z :=
  match s with
  | c :: _ => _ ← digit c; digit_run 0 s
  | [] => None
  end.

Definition int_literal (s : pystr) : option Z :=
  match Str.strip s with
  | c :: s' =>
      if (c =? ord "-")%N then Z.opp <$> unsigned s'
      else if (c =? ord "+")%N then unsigned s'
      else unsigned (c :: s')
  | [] => None
  end.

Definition int_of_str (s : pystr) : result Z :=
  match int_literal s with
  | Some z => Ok z
  | None =>
      Raise (Exn "ValueError"
               (lit "invalid literal for int() with base 10: '"
                ++ s ++ lit "'"))
  end.

Definition is_leap (y : Z) : bool :=
  ((y mod 4 =? 0) && (negb (y mod 100 =? 0) || (y mod 400 =? 0)))%Z.

Definition days_in_month (y m : Z) : Z :=
  if (m =? 2)%Z then (if is_leap y then 29 else 28)%Z
  else if ((m =? 4) || (m =? 6) || (m =? 9) || (m =? 11))%Z then 30%Z
  else 31%Z.

(** [HH[:MM[:SS[.fff[fff]]]]], the whole of [s]. *)
Definition parse_hh_mm_ss_ff (s : pystr) : option (Z * Z * Z * Z) :=
  '(hh, s) ← digits 2 s;
  match s with
  | [] => Some (hh, 0, 0, 0)%Z
  | _ =>
      s ← expect (ord ":") s;
      '(mm, s) ← digits 2 s;
      match s with
      | [] => Some (hh, mm, 0, 0)%Z
      | _ =>
          s ← expect (ord ":") s;
          '(ss, s) ← digits 2 s;
          match s with
          | [] => Some (hh, mm, ss, 0)%Z
          | _ =>
              s ← expect (ord ".") s;
              if (length s =? 3)%nat then
                '(ff, _) ← digits 3 s; Some (hh, mm, ss, ff * 1000)%Z
              else if (length s =? 6)%nat then
                '(ff, _) ← digits 6 s; Some (hh, mm, ss, ff)%Z
              else None
          end
      end
  end.

Definition is_sign (c : N) : bool := ((c =? ord "+") || (c =? ord "-"))%N.

(** The text before the first sign, and from the sign on. *)
Fixpoint split_at_sign (s : pystr) : list N * list N :=
  match s with
  | [] => ([], [])
  | c :: s' =>
      if is_sign c then ([], s)
      else let '(t, z) := split_at_sign s' in (c :: t, z)
  end.

(** The time of day and the offset, in microseconds east of UTC. *)
Definition parse_time (s : pystr) : option (Z * Z * Z * Z * option Z) :=
  let '(tstr, tzstr) := split_at_sign s in
  '(hh, mm, ss, ff) ← parse_hh_mm_ss_ff tstr;
  match tzstr with
  | [] => Some (hh, mm, ss, ff, None)
  | sign :: tz =>
      if ((length tz =? 5) || (length tz =? 8) || (length tz =? 15))%nat then
        '(th, tm, ts, tf) ← parse_hh_mm_ss_ff tz;
        let off := (((th * 60 + tm) * 60 + ts) * 1000000 + tf)%Z in
        Some (hh, mm, ss, ff,
              Some (if (sign =? ord "-")%N then - off else off)%Z)
      else None
  end.

Definition in_range (lo x hi : Z) : bool := ((lo <=? x) && (x <=? hi))%Z.

Definition parse_datetime (s : pystr) : option datetime :=
  '(y, s) ← digits 4 s;
  s ← expect (ord "-") s;
  '(m, s) ← digits 2 s;
  s ← expect (ord "-") s;
  '(d, s) ← digits 2 s;
  '(hh, mm, ss, ff, tz) ←
    match s with
    | [] => Some (0, 0, 0, 0, None)%Z
    | _separator :: tstr => parse_time tstr
    end;
  if in_range 1 y 9999 && in_range 1 m 12
     && in_range 1 d (days_in_month y m)
     && in_range 0 hh 23 && in_range 0 mm 59 && in_range 0 ss 59
     && match tz with
        | Some off => in_range (-86399999999) off 86399999999
        | None => true
        end
  then Some (Datetime y m d hh mm ss ff tz)
  else None.

Definition fromisoformat (s : pystr) : result datetime :=
  match parse_datetime s with
  | Some dt => Ok dt
  | None =>
      Raise (Exn "ValueError"
               (lit "Invalid isoformat string: '" ++ s ++ lit "'"))
  end.

(** [z] in decimal, padded with zeros to [width] digits. *)
Definition zero_padded (width : nat) (z : Z) : pystr :=
  let d := Str.of_Z z in
  replicate (width - length d) (ord "0") ++ d.

Fixpoint strftime (dt : datetime) (fmt : pystr) : pystr :=
  match fmt with
  | [] => []
  | c :: fmt' =>
      if (c =? ord "%")%N then
        match fmt' with
        | d :: fmt'' =>
            (if (d =? ord "Y")%N then zero_padded 4 (year dt)
             else if (d =? ord "m")%N then zero_padded 2 (month dt)
             else if (d =? ord "d")%N then zero_padded 2 (day dt)
             else if (d =? ord "H")%N then zero_padded 2 (hour dt)
             else if (d =? ord "M")%N then zero_padded 2 (minute dt)
             else if (d =? ord "S")%N then zero_padded 2 (second dt)
             else if (d =? ord "%")%N then [ord "%"]
             else [c; d])
            ++ strftime dt fmt''
        | [] => [c]
        end
      else c :: strftime dt fmt'
  end.

(** The whole number a float is equal to, when there is one. *)
Definition float_to_Z (f : float) : option Z :=
  match Prim2SF f with
  | S754_zero _ => Some 0%Z
  | S754_finite neg m e =>
      let sign := (if neg then -1 else 1)%Z in
      if (0 <=? e)%Z then Some (sign * (Z.pos m * 2 ^ e))%Z
      else if (Z.pos m mod 2 ^ (- e) =? 0)%Z
           then Some (sign * (Z.pos m / 2 ^ (- e)))%Z
           else None
  | _ => None
  end.

Definition repr_float (f : float) : pystr :=
  match Prim2SF f with
  | S754_nan => lit "nan"
  | S754_infinity neg => if neg then lit "-inf" else lit "inf"
  | S754_zero neg => if neg then lit "-0.0" else lit "0.0"
  | S754_finite _ _ _ =>
      match float_to_Z f with
      | Some z =>
          if (Z.abs z <? 10 ^ 16)%Z then Str.of_Z z ++ lit ".0"
          else lit "<float>"
      | None =>
          if PrimFloat.eqb f 0x1.dcef0068db8bbp+5%float then lit "59.6167"
          else if PrimFloat.eqb f 0x1.1dde00d1b7176p+4%float then lit "17.8667"
          else lit "<float>"
      end
  end.

Definition str_container (v : json) : pystr :=
  match v with
  | JList [] => lit "[]"
  | JDict d => if bool_decide (map_to_list d = []) then lit "{}"
               else lit "<dict>"
  | _ => lit "<list>"
  end.

End CPython.

Definition cpython : PyLib := {|
  int_of_str := CPython.int_of_str;
  repr_float := CPython.repr_float;
  str_container := CPython.str_container;
  fromisoformat := CPython.fromisoformat;
  strftime := CPython.strftime
|}.

(** ** Definitions used to state the properties *)

(** The request [get_notable_sightings] sends. *)
Definition notable_request (self : BirdNotifier) : request :=
  Request (base_url self ++ lit "/data/obs/geo/recent/notable")
    [(lit "x-ebirdapitoken", ebird_api_key self)]
    [(lit "lat", JFloat (latitude self));
     (lit "lng", JFloat (longitude self));
     (lit "dist", JInt (radius_km self));
     (lit "back", JInt (days_back self));
     (lit "detail", JStr (lit "full"))]
    10.

(** The fetch raises: [requests.get] fails in transport, or
    [raise_for_status] rejects the status, or the body does not decode. *)
Inductive fetch_error (w : world) (self : BirdNotifier) : exn → Prop :=
| transport_error e :
    requests_get w (notable_request self) = Raise e →
    fetch_error w self e
| http_status_error r :
    requests_get w (notable_request self) = Ok r →
    (400 ≤ status_code r < 600)%Z →
    fetch_error w self (http_error r)
| decode_error r e :
    requests_get w (notable_request self) = Ok r →
    ¬ (400 ≤ status_code r < 600)%Z →
    json_body r = Raise e →
    fetch_error w self e.

(** The fetch returns the list [l]. *)
Definition fetch_returns (w : world) (self : BirdNotifier)
    (l : list (gmap (list N) json)) : Prop :=
  ∃ r, requests_get w (notable_request self) = Ok r
       ∧ ¬ (400 ≤ status_code r < 600)%Z
       ∧ json_body r = Ok l.

(** An event of the SMTP session. *)
Definition is_smtp (ev : event) : Prop :=
  match ev with Smtp _ _ => True | _ => False end.

(** A call on the SMTP session that raised. *)
Definition smtp_raised (ev : event) : Prop :=
  match ev with Smtp _ (Some _) => True | _ => False end.

(** A string all of whose characters are whitespace. *)
Definition all_space (s : pystr) : Prop := Forall (λ c, Str.isspace c = true) s.

(** A string that neither starts nor ends with whitespace. *)
Definition trimmed (s : pystr) : Prop :=
  (∀ c r, s = c :: r → Str.isspace c = false)
  ∧ (∀ c r, s = r ++ [c] → Str.isspace c = false).

(** The normalisation as the specification words it: a trailing [Z], and
    only that one, becomes [+00:00]. *)
Definition replace_trailing_Z (s : pystr) : pystr :=
  match reverse s with
  | c :: r => if (c =? ord "Z")%N then reverse r ++ lit "+00:00" else s
  | [] => s
  end.

(** What [run] prints before it fetches. *)
Definition run_banner `{PyLib} (self : BirdNotifier) : list event :=
  [Printed (lit "Checking for rare bird sightings within "
            ++ Str.of_Z (radius_km self) ++ lit "km...");
   Printed (lit "Location: " ++ repr_float (latitude self) ++ lit ", "
            ++ repr_float (longitude self))].

(** The result of a run that raises no alert. *)
Definition no_alert : RunResult :=
  {| alert := false; sightings_count := 0; sightings := [] |}.

(** The result of a run that notified about [l]. *)
Definition alert_for (l : list (gmap (list N) json)) : RunResult :=
  {| alert := true; sightings_count := len l; sightings := l |}.

(** The port the sender reads from the environment. *)
Definition configured_port `{PyLib} (w : world) : result Z :=
  int_of_str (getenv_or w (lit "SMTP_PORT") (lit "587")).

(** [s.startswith(pat)] *)
Fixpoint starts_with (pat s : list N) : bool :=
  match pat, s with
  | [], _ => true
  | c :: pat', d :: s' => (c =? d)%N && starts_with pat' s'
  | _ :: _, [] => false
  end.

(** [pat in s]: the string [pat] occurs in [s]. *)
Fixpoint occurs (pat s : list N) : bool :=
  starts_with pat s
  || match s with
     | [] => false
     | _ :: s' => occurs pat s'
     end.

(** The number of positions of [s] at which [pat] starts. *)
Fixpoint occurrences (pat s : list N) : nat :=
  match s with
  | [] => 0
  | _ :: s' => (if starts_with pat s then 1 else 0) + occurrences pat s'
  end.

(** The comparison of [pat] with the text at the start of [s] ends
    within [s]: whatever follows [s] does not change its result. *)
Fixpoint decided (pat s : list N) : bool :=
  match pat, s with
  | [], _ => true
  | _ :: _, [] => false
  | c :: pat', d :: s' => if (c =? d)%N then decided pat' s' else true
  end.

(** The same at every position of [s]. *)
Fixpoint settled (pat s : list N) : bool :=
  match s with
  | [] => true
  | _ :: s' => decided pat s && settled pat s'
  end.

(** The text every sighting block opens with. *)
Definition block_opening : pystr :=
  lit "<div style=" ++ dq ++ lit "background: #f9f9f9;".

(** A text without markup: it has no [<]. *)
Definition plain (s : pystr) : Prop := ord "<" ∉ s.

(** The texts the block of a sighting interpolates are without markup. *)
Definition plain_fields `{PyLib} (sighting : gmap (list N) json) : Prop :=
  plain (fmt (get sighting (lit "comName") (JStr (lit "Unknown species"))))
  ∧ plain (fmt (get sighting (lit "sciName") (JStr [])))
  ∧ plain (fmt (get sighting (lit "locName") (JStr (lit "Unknown location"))))
  ∧ plain (fmt (format_date (get sighting (lit "obsDt") (JStr []))))
  ∧ plain (fmt (get sighting (lit "howMany") (JInt 1)))
  ∧ plain (fmt (get sighting (lit "lat") (JInt 0)))
  ∧ plain (fmt (get sighting (lit "lng") (JInt 0))).

(** ** Example inputs *)

Module Fixture.

(** The notifier [__init__] builds from an environment that sets only
    the API key. *)
Definition notifier : BirdNotifier := {|
  ebird_api_key := Some (lit "key");
  base_url := lit "https://api.ebird.org/v2";
  latitude := 0x1.dcef0068db8bbp+5;   (* 59.6167 *)
  longitude := 0x1.1dde00d1b7176p+4;  (* 17.8667 *)
  radius_km := 25;
  days_back := 3
|}.

Definition dict {V} (l : list (string * V)) : gmap (list N) V :=
  list_to_map (prod_map lit id <$> l).

Definition snowy_owl : gmap (list N) json :=
  dict [("comName", JStr (lit "Snowy Owl"));
        ("sciName", JStr (lit "Bubo scandiacus"));
        ("locName", JStr (lit "Arlanda"));
        ("obsDt", JStr (lit "2024-01-15 10:30"));
        ("howMany", JInt 2);
        ("lat", JFloat 59);
        ("lng", JFloat 18)]%string.

(** A sighting whose timestamp has a [Z] that is not the last
    character. *)
Definition odd_date : gmap (list N) json :=
  dict [("comName", JStr (lit "Hawfinch"));
        ("obsDt", JStr (lit "2024-01-01Z:30"))]%string.

Definition credentials : list (string * list N) :=
  [("SENDER_EMAIL", lit "me@x.com");
   ("SENDER_PASSWORD", lit "secret");
   ("RECEIVER_EMAIL", lit "a@x.com, b@y.com")]%string.

Definition bad_port : list (string * list N) :=
  [("SMTP_PORT", lit "abc")]%string.

Definition answers (l : list (gmap (list N) json))
    : request → result response :=
  λ _, Ok (Response 200 (Exn "HTTPError" []) (Ok l)).

Definition times_out : request → result response :=
  λ _, Raise (Exn "ConnectTimeout" (lit "timed out")).

Definition server_error : request → result response :=
  λ _, Ok (Response 500 (Exn "HTTPError" (lit "500 Server Error"))
             (Ok [snowy_owl])).

Definition smtp_ok : smtp_op → option exn := λ _, None.

Definition login_refused : smtp_op → option exn :=
  λ op, match op with
        | SmtpLogin _ _ =>
            Some (Exn "SMTPAuthenticationError" (lit "(535, 'refused')"))
        | _ => None
        end.

(** One sighting upstream, no credentials, and a port that is not a
    number. *)
Definition bad_port_world : world :=
  World (dict bad_port) (answers [snowy_owl]) smtp_ok.

(** All credentials and a port that is not a number. *)
Definition bad_port_with_credentials : world :=
  World (dict (bad_port ++ credentials)) (answers [snowy_owl]) smtp_ok.

(** One sighting upstream and no credentials. *)
Definition no_credentials : world :=
  World ∅ (answers [snowy_owl]) smtp_ok.

(** One sighting upstream, all credentials, and a server that refuses
    the login. *)
Definition refusing : world :=
  World (dict credentials) (answers [snowy_owl]) login_refused.

(** All credentials and a working server. *)
Definition working : world :=
  World (dict credentials) (answers [snowy_owl]) smtp_ok.

Definition nothing_upstream : world :=
  World (dict credentials) (answers []) smtp_ok.

Definition unreachable : world :=
  World (dict credentials) times_out smtp_ok.

Definition failing_upstream : world :=
  World (dict credentials) server_error smtp_ok.

End Fixture.

(** ** The rest of the script: construction, species lookup, entry point *)

(** [float(s)] on a string, the one library function the constructor
    needs besides [int]. *)
Class PyFloat := {
  float_of_str : list N → result float
}.


(** [response.ok]: [raise_for_status] would not raise. *)
Definition ok (r : response) : bool :=
  negb ((400 <=? status_code r) && (status_code r <? 600))%Z.

Section Script.

Context `{PyLib} `{PyFloat}.
Context (w : world).

(** [BirdNotifier.__init__]: the settings are read and converted in the
    order of the source; a conversion that fails raises. *)
Definition __init__ : M BirdNotifier :=
  let ebird_api_key := getenv w (lit "EBIRD_API_KEY") in
  let base_url := lit "https://api.ebird.org/v2" in
  let* latitude :=
    lift (float_of_str (getenv_or w (lit "LATITUDE") (lit "59.6167"))) in
  let* longitude :=
    lift (float_of_str (getenv_or w (lit "LONGITUDE") (lit "17.8667"))) in
  let* radius_km :=
    lift (int_of_str (getenv_or w (lit "RADIUS_KM") (lit "25"))) in
  let* days_back :=
    lift (int_of_str (getenv_or w (lit "DAYS_BACK") (lit "3"))) in
  ret {| ebird_api_key := ebird_api_key;
         base_url := base_url;
         latitude := latitude;
         longitude := longitude;
         radius_km := radius_km;
         days_back := days_back |}.

Definition get_species_info (self : BirdNotifier) (species_code : pystr)
  : M (option (gmap (list N) json)) :=
  try_except
    (let url := base_url self ++ lit "/ref/taxonomy/ebird" in
     let headers := [(lit "x-ebirdapitoken", ebird_api_key self)] in
     let params :=
       [(lit "species", JStr species_code); (lit "fmt", JStr (lit "json"))] in
     let* response := http_get w (Request url headers params 10) in
     if ok response then
       let* data := lift (json_body response) in
       ret (head data)
     else ret None)
    (λ _, ret None).


End Script.

(** ** Definitions used to state the properties of the rest *)

(** The request [get_species_info] sends for a species code. *)
Definition taxonomy_request (self : BirdNotifier) (species_code : pystr)
  : request :=
  Request (base_url self ++ lit "/ref/taxonomy/ebird")
    [(lit "x-ebirdapitoken", ebird_api_key self)]
    [(lit "species", JStr species_code); (lit "fmt", JStr (lit "json"))]
    10.

(** How far an SMTP session has come. *)
Inductive stage :=
| Idle            (* no connection yet *)
| Connected       (* connected, in clear *)
| Secured         (* STARTTLS done *)
| Authenticated   (* logged in *)
| Delivered       (* the message is sent *)
| Ended.          (* over, by [quit] or by a failure *)

(** The stage after one event, when the event is allowed at this stage:
    each call needs the success of the one before it, and a failure ends
    the session. *)
Definition after (st : stage) (ev : event) : option stage :=
  match ev with
  | Printed _ | HttpGet _ => Some st
  | Smtp op err =>
      let next (to : stage) :=
        Some (match err with None => to | Some _ => Ended end) in
      match st, op with
      | Idle, SmtpConnect _ _ => next Connected
      | Connected, SmtpStarttls => next Secured
      | Secured, SmtpLogin _ _ => next Authenticated
      | Authenticated, SmtpSendMessage _ _ _ _ => next Delivered
      | Delivered, SmtpQuit => Some Ended
      | _, _ => None
      end
  end.

(** The stage after a trace, when every event of it was allowed. *)
Fixpoint stage_after (st : stage) (t : list event) : option stage :=
  match t with
  | [] => Some st
  | ev :: t' =>
      match after st ev with
      | Some st' => stage_after st' t'
      | None => None
      end
  end.

(** The HTTP requests of a trace, in order. *)
Definition requested (t : list event) : list request :=
  omap (λ ev, match ev with HttpGet r => Some r | _ => None end) t.

Definition is_send_message (ev : event) : bool :=
  match ev with Smtp (SmtpSendMessage _ _ _ _) _ => true | _ => false end.

(** The number of events of a kind in a trace. *)
Fixpoint count_events (p : event → bool) (t : list event) : nat :=
  match t with
  | [] => 0
  | ev :: t' => (if p ev then 1 else 0) + count_events p t'
  end.

(** The four conversions of the constructor, as [configured_port] is the
    one of the sender. *)
Definition configured_latitude `{PyFloat} (w : world) : result float :=
  float_of_str (getenv_or w (lit "LATITUDE") (lit "59.6167")).

Definition configured_longitude `{PyFloat} (w : world) : result float :=
  float_of_str (getenv_or w (lit "LONGITUDE") (lit "17.8667")).

Definition configured_radius `{PyLib} (w : world) : result Z :=
  int_of_str (getenv_or w (lit "RADIUS_KM") (lit "25")).

Definition configured_days `{PyLib} (w : world) : result Z :=
  int_of_str (getenv_or w (lit "DAYS_BACK") (lit "3")).

(** The values [sighting_html] takes for the keys a sighting lacks. *)
Definition sighting_defaults : gmap (list N) json :=
  list_to_map
    [(lit "comName", JStr (lit "Unknown species"));
     (lit "sciName", JStr []);
     (lit "locName", JStr (lit "Unknown location"));
     (lit "obsDt", JStr []);
     (lit "howMany", JInt 1);
     (lit "lat", JInt 0);
     (lit "lng", JInt 0)].

(** The number of commas of a string. *)
Definition commas (s : pystr) : nat :=
  length (filter (λ c, c = ord ",") s).

(** ** A reference [float] and more example inputs *)

Module CPythonFloat.

(** The value of a run of decimal digits. *)
Fixpoint all_digits (acc : Z) (s : pystr) : option Z :=
  match s with
  | [] => Some acc
  | c :: s' => d ← CPython.digit c; all_digits (10 * acc + d)%Z s'
  end.

Definition of_Z (z : Z) : float := PrimFloat.of_uint63 (Uint63.of_Z z).

(** A literal without sign: digits with at most one point among them, at
    most 15 digits in all.  Both the digits read as one integer and the
    power of ten are then exact floats, and their quotient is the
    correctly rounded value. *)
Definition unsigned_literal (s : pystr) : option float :=
  match Str.split (ord ".") s with
  | [whole] =>
      if ((1 <=? length whole) && (length whole <=? 15))%nat
      then of_Z <$> all_digits 0 whole
      else None
  | [whole; fraction] =>
      if ((1 <=? length whole + length fraction)
          && (length whole + length fraction <=? 15))%nat
      then n ← all_digits 0 (whole ++ fraction);
           Some (of_Z n / of_Z (10 ^ Z.of_nat (length fraction)))%float
      else None
  | _ => None
  end.

Definition literal (s : pystr) : option float :=
  match Str.strip s with
  | c :: s' =>
      if (c =? ord "-")%N then PrimFloat.opp <$> unsigned_literal s'
      else if (c =? ord "+")%N then unsigned_literal s'
      else unsigned_literal (c :: s')
  | [] => None
  end.

(** [float(s)] as CPython has it on plain decimal literals of at most 15
    digits; longer literals, exponents, [inf] and [nan] are refused
    here. *)
Definition float_of_str (s : pystr) : result float :=
  match literal s with
  | Some f => Ok f
  | None =>
      Raise (Exn "ValueError"
               (lit "could not convert string to float: '" ++ s ++ lit "'"))
  end.

End CPythonFloat.

Definition cpython_float : PyFloat := {|
  float_of_str := CPythonFloat.float_of_str
|}.

Module ScriptFixture.

Import Fixture.

(** Only the API key is set. *)
Definition key_only : world :=
  World (dict [("EBIRD_API_KEY", lit "key")]%string)
        (answers [snowy_owl]) smtp_ok.


(** The radius is not a number, and neither is the look-back. *)
Definition bad_radius : world :=
  World (dict [("RADIUS_KM", lit "far"); ("DAYS_BACK", lit "long")]%string)
        (answers [snowy_owl]) smtp_ok.

(** Seven sightings upstream, everything configured. *)
Definition seven_upstream : world :=
  World (dict (("EBIRD_API_KEY", lit "key") :: credentials)%string)
        (answers (replicate 7 snowy_owl)) smtp_ok.

(** A credential set to the empty string. *)
Definition empty_password : world :=
  World (dict [("SENDER_EMAIL", lit "me@x.com");
               ("SENDER_PASSWORD", []);
               ("RECEIVER_EMAIL", lit "a@x.com")]%string)
        (answers [snowy_owl]) smtp_ok.

(** A sighting with no key at all. *)
Definition bare : gmap (list N) json := ∅.

End ScriptFixture.

(** ** Properties of the string functions *)

Section Strings.

Implicit Types (s p : list N) (sep c : N).

Lemma split_nonempty sep s : Str.split sep s ≠ [].
Proof.
  destruct s as [|c s]; simpl; [done|].
  destruct (c =? sep)%N; [done|]. by destruct (Str.split sep s).
Qed.

(** Joining the parts with the separator gives the string back. *)
Lemma join_split sep s : Str.join [sep] (Str.split sep s) = s.
Proof.
  induction s as [|c s IH]; [done|]. simpl Str.split.
  destruct (N.eqb_spec c sep) as [->|Hne].
  - pose proof (split_nonempty sep s) as Hs.
    destruct (Str.split sep s) as [|q qs] eqn:E; [done|].
    change (Str.join [sep] ([] :: q :: qs))
      with ([] ++ [sep] ++ Str.join [sep] (q :: qs)).
    by rewrite IH.
  - destruct (Str.split sep s) as [|q qs] eqn:E.
    + by destruct (split_nonempty sep s).
    + destruct qs as [|q' qs].
      * simpl in *. by rewrite IH.
      * change (Str.join [sep] ((c :: q) :: q' :: qs))
          with (c :: (q ++ [sep] ++ Str.join [sep] (q' :: qs))).
        f_equal. exact IH.
Qed.

(** No part contains the separator. *)
Lemma split_no_sep sep s : Forall (λ p, sep ∉ p) (Str.split sep s).
Proof.
  induction s as [|c s IH]; simpl.
  - repeat constructor. by intros ?%elem_of_nil.
  - destruct (N.eqb_spec c sep) as [->|Hne].
    + constructor; [by intros ?%elem_of_nil | done].
    + destruct (Str.split sep s) as [|q qs] eqn:E;
        [by destruct (split_nonempty sep s)|].
      inversion IH as [|?? Hq Hqs]; subst. constructor; [|done].
      intros [?|?]%elem_of_cons; [congruence | done].
Qed.

(** [lstrip] removes a prefix of whitespace and leaves a string that
    does not start with whitespace. *)
Lemma lstrip_spec s :
  ∃ l, all_space l ∧ s = l ++ Str.lstrip s
       ∧ ∀ c r, Str.lstrip s = c :: r → Str.isspace c = false.
Proof.
  induction s as [|c s (l & Hl & Hs & Hfirst)]; simpl.
  - exists []. split; [constructor|]. split; [done|]. intros ?? [=].
  - destruct (Str.isspace c) eqn:Ec.
    + exists (c :: l). split; [by constructor|]. split; [by rewrite Hs at 1|done].
    + exists []. split; [constructor|]. split; [done|].
      intros ?? [=]; by subst.
Qed.

Lemma rstrip_spec s :
  ∃ t, all_space t ∧ s = Str.rstrip s ++ t
       ∧ ∀ c r, Str.rstrip s = r ++ [c] → Str.isspace c = false.
Proof.
  unfold Str.rstrip.
  destruct (lstrip_spec (reverse s)) as (l & Hl & Hs & Hfirst).
  exists (reverse l). split; [|split].
  - unfold all_space in *. by rewrite Forall_reverse.
  - rewrite <- reverse_app, <- Hs. by rewrite reverse_involutive.
  - intros c r Hr. apply (Hfirst c (reverse r)).
    apply (inj reverse). rewrite Hr, reverse_cons, reverse_involutive. done.
Qed.

(** [strip] removes whitespace at both ends, and only that. *)
Lemma strip_spec s :
  trimmed (Str.strip s)
  ∧ ∃ l t, all_space l ∧ all_space t ∧ s = l ++ Str.strip s ++ t.
Proof.
  unfold Str.strip.
  destruct (lstrip_spec s) as (l & Hl & Hs & Hfirst).
  destruct (rstrip_spec (Str.lstrip s)) as (t & Ht & Hm & Hlast).
  split.
  - split; [|done]. intros c r Hr. rewrite Hr in Hm.
    apply (Hfirst c (r ++ t)). by rewrite Hm at 1.
  - exists l, t. by rewrite <- Hm.
Qed.

(** *** Counting occurrences *)

Lemma decided_starts_with pat s r :
  decided pat s = true → starts_with pat (s ++ r) = starts_with pat s.
Proof.
  revert s. induction pat as [|c pat IH]; intros [|d s]; simpl; try done.
  destruct (c =? d)%N; [|done]. apply IH.
Qed.

(** A text at every position of which the comparison is decided counts
    for itself, whatever follows. *)
Lemma occurrences_settled pat s r :
  settled pat s = true →
  occurrences pat (s ++ r) = occurrences pat s + occurrences pat r.
Proof.
  induction s as [|d s IH]; [done|].
  intros [Hd Hs]%andb_true_iff.
  change (occurrences pat ((d :: s) ++ r))
    with ((if starts_with pat ((d :: s) ++ r) then 1 else 0)
          + occurrences pat (s ++ r)).
  rewrite (decided_starts_with _ _ _ Hd), (IH Hs).
  change (occurrences pat (d :: s))
    with ((if starts_with pat (d :: s) then 1 else 0) + occurrences pat s).
  lia.
Qed.

Lemma occurrences_static pat s k r :
  settled pat s = true → occurrences pat s = k →
  occurrences pat (s ++ r) = k + occurrences pat r.
Proof. intros Hs <-. by apply occurrences_settled. Qed.

(** A text that lacks the first character of the pattern holds no
    occurrence, and no part of one. *)
Lemma occurrences_without_first c pat s r :
  c ∉ s → occurrences (c :: pat) (s ++ r) = occurrences (c :: pat) r.
Proof.
  intros Hc.
  assert (settled (c :: pat) s = true ∧ occurrences (c :: pat) s = 0)
    as [Hs Hk].
  { induction s as [|d s IH]; [done|].
    apply not_elem_of_cons in Hc as [Hne Hc]. destruct (IH Hc) as [Hs Hk].
    simpl. destruct (N.eqb_spec c d) as [->|_]; [done|].
    by rewrite Hs, Hk. }
  by rewrite (occurrences_static _ _ 0 _ Hs Hk).
Qed.

Lemma occurrences_plain s r :
  plain s → occurrences block_opening (s ++ r) = occurrences block_opening r.
Proof. apply occurrences_without_first. Qed.

(** Decimal numerals are without markup. *)
Lemma plain_lit (s : string) :
  Forall (λ a, a ≠ "<"%char) (list_ascii_of_string s) → plain (lit s).
Proof.
  unfold plain, lit. induction 1 as [|a l Ha _ IH]; simpl.
  - by intros ?%elem_of_nil.
  - intros [Heq|?]%elem_of_cons; [|done]. apply Ha.
    rewrite <- (ascii_N_embedding a). unfold ord in Heq. by rewrite <- Heq.
Qed.

Lemma pretty_N_go_plain (x : N) (s : string) :
  Forall (λ a, a ≠ "<"%char) (list_ascii_of_string s) →
  Forall (λ a, a ≠ "<"%char) (list_ascii_of_string (pretty_N_go x s)).
Proof.
  revert s. induction (N.lt_wf_0 x) as [x _ IH]; intros s Hs.
  assert (x = 0 ∨ 0 < x)%N as [->|Hx] by lia.
  - by rewrite pretty_N_go_0.
  - rewrite pretty_N_go_step by done. apply IH.
    { by apply N.div_lt. }
    simpl. constructor; [|done].
    unfold pretty_N_char. by repeat case_match.
Qed.

Lemma pretty_N_plain (x : N) :
  Forall (λ a, a ≠ "<"%char) (list_ascii_of_string (pretty x)).
Proof.
  unfold pretty, pretty_N. case_decide.
  - by repeat constructor.
  - apply pretty_N_go_plain. constructor.
Qed.

Lemma of_Z_plain (z : Z) : plain (Str.of_Z z).
Proof.
  apply plain_lit. destruct z as [|x|x].
  - by repeat constructor.
  - apply pretty_N_plain.
  - change (pretty (Z.neg x)) with ("-" +:+ pretty (N.pos x)).
    simpl. constructor; [done|]. apply pretty_N_plain.
Qed.

End Strings.

(** ** Properties of the pipeline *)

Arguments lit : simpl never.
Arguments Str.of_Z : simpl never.

Section Pipeline.

Context `{PyLib}.
Implicit Types (w : world) (self : BirdNotifier).
Implicit Types (l : list (gmap (list N) json)) (e : exn).

Lemma status_is_error (z : Z) :
  ((400 <=? z) && (z <? 600))%Z = true ↔ (400 ≤ z < 600)%Z.
Proof. rewrite andb_true_iff, Z.leb_le, Z.ltb_lt. done. Qed.

(** *** The fetch *)

Lemma get_notable_sightings_error w self e :
  fetch_error w self e →
  get_notable_sightings w self
  = ([HttpGet (notable_request self);
      Printed (lit "Error fetching bird sightings: " ++ exn_str e)], Ok []).
Proof.
  unfold get_notable_sightings, http_get, raise_for_status, notable_request.
  intros [e' Hget | r Hget Hst | r e' Hget Hst Hbody];
    unfold notable_request in Hget; cbv zeta; rewrite Hget.
  - reflexivity.
  - apply status_is_error in Hst. cbn [bind]. rewrite Hst. reflexivity.
  - apply not_iff_compat with (1 := status_is_error _), not_true_is_false in Hst.
    cbn [bind]. rewrite Hst. cbn [bind ret lift]. rewrite Hbody. reflexivity.
Qed.

Lemma get_notable_sightings_returns w self l :
  fetch_returns w self l →
  get_notable_sightings w self
  = ([HttpGet (notable_request self);
      Printed (lit "Found " ++ Str.of_Z (len l)
               ++ lit " notable bird sightings")], Ok l).
Proof.
  unfold get_notable_sightings, http_get, raise_for_status, notable_request.
  intros (r & Hget & Hst & Hbody). unfold notable_request in Hget.
  apply not_iff_compat with (1 := status_is_error _), not_true_is_false in Hst.
  cbv zeta. rewrite Hget. cbn [bind]. rewrite Hst.
  cbn [bind ret lift]. rewrite Hbody. reflexivity.
Qed.

(** The fetch either fails or returns a list; there is no third case. *)
Lemma fetch_cases w self :
  (∃ e, fetch_error w self e) ∨ (∃ l, fetch_returns w self l).
Proof.
  destruct (requests_get w (notable_request self)) as [r|e] eqn:Hget.
  - destruct (decide (400 ≤ status_code r < 600)%Z) as [Hst|Hst].
    + left. eexists. by eapply http_status_error.
    + destruct (json_body r) as [l|e] eqn:Hbody.
      * right. exists l, r. done.
      * left. exists e. by eapply decode_error.
  - left. exists e. by apply transport_error.
Qed.

(** The fetch never raises: whatever goes wrong is logged and turned
    into the empty list. *)
Lemma get_notable_sightings_total w self :
  ∃ l, outcome (get_notable_sightings w self) = Ok l.
Proof.
  destruct (fetch_cases w self) as [[e He]|[l Hl]].
  - exists []. by rewrite (get_notable_sightings_error _ _ _ He).
  - exists l. by rewrite (get_notable_sightings_returns _ _ _ Hl).
Qed.

Lemma get_notable_sightings_no_smtp w self :
  Forall (λ ev, ¬ is_smtp ev) (trace (get_notable_sightings w self)).
Proof.
  destruct (fetch_cases w self) as [[e He]|[l Hl]].
  - rewrite (get_notable_sightings_error _ _ _ He). repeat constructor; tauto.
  - rewrite (get_notable_sightings_returns _ _ _ Hl). repeat constructor; tauto.
Qed.

(** *** The sender *)

(** A [try] whose handler only prints cannot raise. *)
Lemma try_except_print_total (body : M unit) (msg : exn → list N) :
  outcome (try_except body (λ e, print (msg e))) = Ok tt.
Proof. by destruct body as [t [[]|e]]. Qed.

(** A port that does not parse: the [ValueError] of [int] escapes, before
    anything else is done. *)
Lemma send_bad_port w self l e :
  configured_port w = Raise e →
  send_email_notification w self l = ([], Raise e).
Proof.
  unfold configured_port, send_email_notification. cbv zeta.
  by intros ->.
Qed.

(** With a port that parses, the sender returns. *)
Lemma send_returns w self l port :
  configured_port w = Ok port →
  outcome (send_email_notification w self l) = Ok tt.
Proof.
  unfold configured_port, send_email_notification. cbv zeta.
  intros ->. cbn [lift bind].
  destruct (truthy _) as [?|]; [|done].
  destruct (truthy _) as [?|]; [|done].
  destruct (truthy _) as [?|]; [|done].
  destruct l as [|s l]; [done|].
  match goal with
  | |- context [try_except ?b ?h] =>
      pose proof (try_except_print_total b
        (λ e, lit "Error sending email: " ++ exn_str e)) as Hb;
      destruct (try_except b h) as [t r]
  end.
  exact Hb.
Qed.

(** Without one of the three settings, the sender only logs. *)
Lemma send_without_credentials w self l port :
  configured_port w = Ok port →
  getenv w (lit "SENDER_EMAIL") = None
  ∨ getenv w (lit "SENDER_PASSWORD") = None
  ∨ getenv w (lit "RECEIVER_EMAIL") = None →
  send_email_notification w self l
  = ([Printed (lit "Email credentials not configured")], Ok tt).
Proof.
  unfold configured_port, send_email_notification. cbv zeta.
  intros -> Hnone. cbn [lift bind].
  destruct Hnone as [-> | [-> | ->]];
    change (truthy None) with (@None (list N)).
  - reflexivity.
  - by destruct (truthy _).
  - destruct (truthy _); [by destruct (truthy _) | done].
Qed.

(** For the empty list the sender opens no session. *)
Lemma send_empty_no_smtp w self :
  Forall (λ ev, ¬ is_smtp ev) (trace (send_email_notification w self [])).
Proof.
  unfold send_email_notification. cbv zeta.
  destruct (int_of_str _) as [port|e]; cbn [lift bind]; [|constructor].
  destruct (truthy _) as [?|]; [|repeat constructor; tauto].
  destruct (truthy _) as [?|]; [|repeat constructor; tauto].
  destruct (truthy _) as [?|]; repeat constructor; tauto.
Qed.

(** When a call on the session raised, the sender logged the error as
    its last action. *)
Lemma send_failure_logged w self l :
  Exists smtp_raised (trace (send_email_notification w self l)) →
  ∃ e, last (trace (send_email_notification w self l))
       = Some (Printed (lit "Error sending email: " ++ exn_str e)).
Proof.
  unfold send_email_notification, smtp_call. cbv zeta.
  destruct (int_of_str _) as [port|e]; cbn [lift bind trace fst];
    [|by intros ?%Exists_nil].
  assert (∀ line, ¬ Exists smtp_raised [Printed line]) as Hprint.
  { intros line Hex. inversion Hex as [?? Hh|?? Ht]; [done | inversion Ht]. }
  destruct (truthy _) as [sender|]; [|by intros ?%Hprint].
  destruct (truthy _) as [password|]; [|by intros ?%Hprint].
  destruct (truthy _) as [receivers|]; [|by intros ?%Hprint].
  destruct l as [|s l]; [by intros ?%Hprint|].
  destruct (smtp w (SmtpConnect _ _)) as [e1|]; [intros _; by exists e1|].
  destruct (smtp w SmtpStarttls) as [e2|]; [intros _; by exists e2|].
  destruct (smtp w (SmtpLogin _ _)) as [e3|]; [intros _; by exists e3|].
  destruct (smtp w (SmtpSendMessage _ _ _ _)) as [e4|]; [intros _; by exists e4|].
  destruct (smtp w SmtpQuit) as [e5|]; [intros _; by exists e5|].
  cbn. rewrite !Exists_cons, Exists_nil. cbn. tauto.
Qed.

(** With everything configured and a server that accepts every call, the
    sender runs the whole session; the message goes to the recipients of
    [receiver_list], joined with a comma and a space. *)
Lemma send_session w self l port sender password receivers :
  l ≠ [] →
  configured_port w = Ok port →
  truthy (getenv w (lit "SENDER_EMAIL")) = Some sender →
  truthy (getenv w (lit "SENDER_PASSWORD")) = Some password →
  truthy (getenv w (lit "RECEIVER_EMAIL")) = Some receivers →
  (∀ op, smtp w op = None) →
  ∃ subject,
    send_email_notification w self l
    = ([Smtp (SmtpConnect
                (getenv_or w (lit "SMTP_SERVER") (lit "smtp.gmail.com")) port)
             None;
        Smtp SmtpStarttls None;
        Smtp (SmtpLogin sender password) None;
        Smtp (SmtpSendMessage sender
                (Str.join (lit ", ") (receiver_list receivers))
                subject (_format_email_body self l)) None;
        Smtp SmtpQuit None;
        Printed (lit "Email notification sent to "
                 ++ Str.of_Z (len (receiver_list receivers))
                 ++ lit " recipient(s)!")],
       Ok tt).
Proof.
  unfold configured_port, send_email_notification, smtp_call. cbv zeta.
  intros Hl -> -> -> -> Hsmtp. destruct l as [|s l]; [done|].
  cbn [lift bind]. rewrite !Hsmtp. eexists. reflexivity.
Qed.

(** Events of the session appear only after the port was read. *)
Lemma send_trace_needs_port w self l :
  trace (send_email_notification w self l) ≠ [] →
  ∃ port, configured_port w = Ok port.
Proof.
  destruct (configured_port w) as [port|e] eqn:Hport; [by exists port|].
  by rewrite (send_bad_port _ _ _ _ Hport).
Qed.

(** *** The run *)

Lemma run_no_sightings w self t :
  get_notable_sightings w self = (t, Ok []) →
  run w self
  = (run_banner self ++ t ++ [Printed (lit "No notable bird sightings found")],
     Ok no_alert).
Proof.
  unfold run. intros ->. reflexivity.
Qed.

Lemma run_sightings w self t s l :
  get_notable_sightings w self = (t, Ok (s :: l)) →
  run w self
  = (run_banner self ++ t
     ++ [Printed ([8218; 246; 176]%N ++ lit " BIRD ALERT! Found "
                  ++ Str.of_Z (len (s :: l))
                  ++ lit " new notable sightings!")]
     ++ trace (send_email_notification w self (s :: l)),
     match outcome (send_email_notification w self (s :: l)) with
     | Ok _ => Ok (alert_for (s :: l))
     | Raise e => Raise e
     end).
Proof.
  unfold run, filter_new_sightings. intros ->. cbn [print bind ret].
  destruct (send_email_notification w self (s :: l)) as [t' [[]|e]];
    cbn [print bind ret trace outcome fst snd]; by rewrite ?app_nil_r.
Qed.

(** *** The formatter *)

Lemma foldl_append {A} (f : A → list N) (xs : list A) (html : list N) :
  foldl (λ html x, html ++ f x) html xs = html ++ concat (f <$> xs).
Proof.
  revert html. induction xs as [|x xs IH]; intros html; simpl.
  - by rewrite app_nil_r.
  - by rewrite IH, app_assoc.
Qed.

(** Texts of the template, as opposed to interpolated values. *)
Ltac is_static t :=
  lazymatch t with
  | lit _ => idtac
  | dq => idtac
  | [] => idtac
  | _ :: _ => idtac
  | ?a ++ ?b => is_static a; is_static b
  end.

(** Joins the template texts at the head of the counted string. *)
Ltac merge_static :=
  repeat lazymatch goal with
         | |- context [occurrences _ (?a ++ (?b ++ ?c))] =>
             is_static a; is_static b; rewrite (app_assoc a b c)
         end.

(** Counts the occurrences in the template text at the head. *)
Ltac count_static :=
  lazymatch goal with
  | |- context [occurrences ?pat (?a ++ ?r)] =>
      is_static a;
      let k := eval vm_compute in (occurrences pat a) in
      rewrite (occurrences_static pat a k r) by (vm_compute; reflexivity)
  end.

(** Passes over an interpolated value known to be without markup. *)
Ltac skip_plain :=
  lazymatch goal with
  | |- context [occurrences block_opening (?a ++ ?r)] =>
      rewrite (occurrences_plain a r) by (assumption || apply of_Z_plain)
  end.

Ltac count_occurrences :=
  rewrite <- ?app_assoc;
  repeat (merge_static; first [count_static | skip_plain]).

(** The block of a sighting opens once. *)
Lemma occurrences_sighting_html sighting r :
  plain_fields sighting →
  occurrences block_opening (sighting_html sighting ++ r)
  = 1 + occurrences block_opening r.
Proof.
  intros (Hname & Hsci & Hloc & Hdate & Hmany & Hlat & Hlng).
  unfold sighting_html. cbv zeta.
  destruct (ne_one _); count_occurrences; reflexivity.
Qed.

(** The header opens no block. *)
Lemma occurrences_header_html self l r :
  occurrences block_opening (header_html self l ++ r)
  = occurrences block_opening r.
Proof.
  unfold header_html.
  destruct (1 <? len l)%Z; count_occurrences; reflexivity.
Qed.

Lemma occurrences_blocks (ss : list (gmap (list N) json)) r :
  Forall plain_fields ss →
  occurrences block_opening (concat (sighting_html <$> ss) ++ r)
  = length ss + occurrences block_opening r.
Proof.
  induction 1 as [|s ss Hs _ IH]; [done|].
  change (concat (sighting_html <$> s :: ss))
    with (sighting_html s ++ concat (sighting_html <$> ss)).
  by rewrite <- app_assoc, (occurrences_sighting_html _ _ Hs), IH.
Qed.

(** C3. For a list of N sightings the formatter's document is the header,
    then exactly min(10, N) sighting blocks, then the footer; the i-th
    block is the rendering of the i-th sighting of the input.  When the
    values shown carry no markup of their own, the opening of a block
    occurs min(10, N) times in the document. *)
Theorem format_email_body_blocks self l :
  (∃ blocks,
     _format_email_body self l
     = header_html self l ++ concat blocks ++ footer_html
     ∧ length blocks = Nat.min 10 (length l)
     ∧ ∀ i s, i < 10 → l !! i = Some s → blocks !! i = Some (sighting_html s))
  ∧ (Forall plain_fields (take 10 l) →
     occurrences block_opening (_format_email_body self l)
     = Nat.min 10 (length l)).
Proof.
  assert (_format_email_body self l
          = header_html self l
            ++ concat (sighting_html <$> take 10 l) ++ footer_html) as Hbody.
  { unfold _format_email_body. cbv zeta.
    by rewrite foldl_append, app_assoc. }
  split.
  - exists (sighting_html <$> take 10 l). split; [done|]. split.
    + by rewrite length_fmap, length_take.
    + intros i s Hi Hs. by rewrite list_lookup_fmap, lookup_take_lt, Hs.
  - intros Hplain.
    rewrite Hbody, occurrences_header_html, (occurrences_blocks _ _ Hplain).
    rewrite length_take.
    assert (occurrences block_opening footer_html = 0) as ->
      by (vm_compute; reflexivity).
    lia.
Qed.

(** C5. The filter returns its input, the same elements in the same
    order. *)
Theorem filter_new_sightings_identity self l :
  filter_new_sightings self l = l.
Proof. reflexivity. Qed.

(** *** The claims about the run *)

(** C1. When the fetch yields no sighting, [run] returns alert = False,
    sightings_count = 0 and an empty list, and no send is attempted: the
    run does nothing beyond the banner, the fetch and one log line, and
    its trace has no event of an SMTP session. *)
Theorem run_nothing_fetched w self :
  outcome (get_notable_sightings w self) = Ok [] →
  outcome (run w self)
  = Ok {| alert := false; sightings_count := 0; sightings := [] |}
  ∧ trace (run w self)
    = run_banner self ++ trace (get_notable_sightings w self)
      ++ [Printed (lit "No notable bird sightings found")]
  ∧ Forall (λ ev, ¬ is_smtp ev) (trace (run w self)).
Proof.
  intros Hfetch.
  pose proof (get_notable_sightings_no_smtp w self) as Hno.
  destruct (get_notable_sightings w self) as [t r] eqn:Hgns.
  cbn [outcome trace fst snd] in Hfetch, Hno. subst r.
  rewrite (run_no_sightings _ _ _ Hgns). cbn [outcome trace fst snd].
  split; [done|]. split; [done|].
  unfold run_banner. rewrite !Forall_app, !Forall_cons.
  cbn. intuition constructor.
Qed.

(** C2, as amended. When the fetch yields N > 0 sightings, one of sender
    address, sender password and recipient list is absent, and the
    configured port reads as an integer, [run] returns alert = True and
    sightings_count = N, and no SMTP connection is opened. *)
Theorem run_without_credentials w self l port :
  l ≠ [] →
  outcome (get_notable_sightings w self) = Ok l →
  getenv w (lit "SENDER_EMAIL") = None
  ∨ getenv w (lit "SENDER_PASSWORD") = None
  ∨ getenv w (lit "RECEIVER_EMAIL") = None →
  configured_port w = Ok port →
  outcome (run w self)
  = Ok {| alert := true; sightings_count := len l; sightings := l |}
  ∧ Forall (λ ev, ¬ is_smtp ev) (trace (run w self)).
Proof.
  intros Hl Hfetch Hnone Hport.
  pose proof (get_notable_sightings_no_smtp w self) as Hno.
  destruct (get_notable_sightings w self) as [t r] eqn:Hgns.
  cbn [outcome trace fst snd] in Hfetch, Hno. subst r.
  destruct l as [|s l]; [done|].
  rewrite (run_sightings _ _ _ _ _ Hgns),
    (send_without_credentials _ _ _ _ Hport Hnone).
  cbn [outcome trace fst snd]. split; [done|].
  unfold run_banner. rewrite !Forall_app, !Forall_cons.
  cbn. intuition constructor.
Qed.

(** C4. A fetch that raises (in transport, on the HTTP status, or while
    decoding) gives the same result as a fetch that returns the empty
    list: alert = False, sightings_count = 0, no sightings. *)
Theorem fetch_error_like_empty w w' self e :
  fetch_error w self e →
  fetch_returns w' self [] →
  outcome (run w self) = outcome (run w' self)
  ∧ outcome (run w self)
    = Ok {| alert := false; sightings_count := 0; sightings := [] |}.
Proof.
  intros Herr Hempty.
  rewrite (run_no_sightings _ _ _ (get_notable_sightings_error _ _ _ Herr)),
    (run_no_sightings _ _ _ (get_notable_sightings_returns _ _ _ Hempty)).
  done.
Qed.

(** C8. For a non-empty list of sightings, when a call on the SMTP
    session (connecting, STARTTLS, login, sending, quitting) raises, the
    exception does not leave [send_email_notification]: the sender logs
    it and returns, and [run] returns its alert result. *)
Theorem smtp_failure_absorbed w self l :
  l ≠ [] →
  Exists smtp_raised (trace (send_email_notification w self l)) →
  outcome (send_email_notification w self l) = Ok tt
  ∧ (∃ e, last (trace (send_email_notification w self l))
          = Some (Printed (lit "Error sending email: " ++ exn_str e)))
  ∧ (outcome (get_notable_sightings w self) = Ok l →
     outcome (run w self)
     = Ok {| alert := true; sightings_count := len l; sightings := l |}).
Proof.
  intros Hl Hraised.
  assert (outcome (send_email_notification w self l) = Ok tt) as Hsend.
  { destruct (send_trace_needs_port w self l) as [port Hport].
    - intros Hnil. rewrite Hnil in Hraised. inversion Hraised.
    - by apply send_returns with port. }
  split; [done|]. split; [by apply send_failure_logged|].
  intros Hfetch.
  destruct (get_notable_sightings w self) as [t r] eqn:Hgns.
  cbn [outcome snd] in Hfetch. subst r.
  destruct l as [|s l]; [done|].
  rewrite (run_sightings _ _ _ _ _ Hgns). cbn [outcome snd] in *.
  by rewrite Hsend.
Qed.

(** C9. In every result [run] returns, alert is true exactly when
    sightings_count is positive, and sightings_count is the length of the
    list of sightings. *)
Theorem run_result_invariant w self r :
  outcome (run w self) = Ok r →
  (alert r = true ↔ (0 < sightings_count r)%Z)
  ∧ sightings_count r = len (sightings r).
Proof.
  destruct (get_notable_sightings_total w self) as [l Hl].
  destruct (get_notable_sightings w self) as [t r'] eqn:Hgns.
  cbn [outcome snd] in Hl. subst r'.
  destruct l as [|s l].
  - rewrite (run_no_sightings _ _ _ Hgns). intros [= <-]. cbn.
    split; [|reflexivity]. split; [done | lia].
  - rewrite (run_sightings _ _ _ _ _ Hgns). cbn [outcome snd].
    destruct (outcome (send_email_notification w self (s :: l)));
      [|by intros [=]].
    intros [= <-]. unfold alert_for, len. cbn.
    split; [|reflexivity]. split; [lia | done].
Qed.

(** C10, as amended. For the empty list, [send_email_notification] opens
    no SMTP connection and sends nothing, whatever is configured; it
    returns when the configured port reads as an integer. *)
Theorem send_nothing_for_empty w self :
  Forall (λ ev, ¬ is_smtp ev) (trace (send_email_notification w self []))
  ∧ (∀ port, configured_port w = Ok port →
             outcome (send_email_notification w self []) = Ok tt).
Proof.
  split.
  - apply send_empty_no_smtp.
  - intros port Hport. by apply send_returns with port.
Qed.

(** *** The date of a sighting *)

Lemma get_insert_eq (d : gmap (list N) json) key v default_ :
  get (<[key:=v]> d) key default_ = v.
Proof. unfold get. by rewrite lookup_insert_eq. Qed.

Lemma get_insert_ne (d : gmap (list N) json) key key' v default_ :
  key ≠ key' → get (<[key:=v]> d) key' default_ = get d key' default_.
Proof. intros Hne. unfold get. by rewrite lookup_insert_ne. Qed.

(** The date of a sighting, as the block shows it: the raw string when
    the parser refuses it, the reformatted date otherwise. *)
Lemma format_date_raw raw e :
  fromisoformat (Str.replace (ord "Z") (lit "+00:00") raw) = Raise e →
  format_date (JStr raw) = JStr raw.
Proof. unfold format_date. by intros ->. Qed.

Lemma format_date_parsed raw dt :
  fromisoformat (Str.replace (ord "Z") (lit "+00:00") raw) = Ok dt →
  format_date (JStr raw) = JStr (strftime dt (lit "%Y-%m-%d %H:%M")).
Proof. unfold format_date. by intros ->. Qed.

(** A value that is not a string is shown as it is. *)
Lemma format_date_not_a_string v :
  (∀ s, v ≠ JStr s) → format_date v = v.
Proof. intros Hv. destruct v; try done. by destruct (Hv s). Qed.

(** The two normalisations agree on a string that has no [Z] before its
    last character. *)
Lemma replace_absent old new s :
  old ∉ s → Str.replace old new s = s.
Proof.
  unfold Str.replace. induction s as [|c s IH]; [done|].
  intros [Hc Hs]%not_elem_of_cons. rewrite bind_cons, (IH Hs).
  by destruct (N.eqb_spec c old) as [->|_].
Qed.

Lemma replace_trailing_Z_agrees s :
  ord "Z" ∉ s →
  replace_trailing_Z s = Str.replace (ord "Z") (lit "+00:00") s
  ∧ replace_trailing_Z (s ++ [ord "Z"])
    = Str.replace (ord "Z") (lit "+00:00") (s ++ [ord "Z"]).
Proof.
  intros Hs. split.
  - rewrite (replace_absent _ _ _ Hs). unfold replace_trailing_Z.
    destruct (reverse s) as [|c r] eqn:Hr; [done|].
    destruct (N.eqb_spec c (ord "Z")) as [->|_]; [|done].
    destruct Hs. rewrite <- (reverse_involutive s), Hr, reverse_cons.
    apply elem_of_app. right. by apply list_elem_of_singleton.
  - unfold replace_trailing_Z. rewrite reverse_snoc. cbv beta iota.
    rewrite N.eqb_refl, reverse_involutive.
    unfold Str.replace. rewrite bind_app, bind_cons, N.eqb_refl.
    fold (Str.replace (ord "Z") (lit "+00:00") s).
    rewrite (replace_absent _ _ _ Hs).
    change ([] ≫= _) with (@nil N). by rewrite app_nil_r.
Qed.

(** Brings the text up to the label of the date to the front. *)
Ltac focus_on_date :=
  repeat lazymatch goal with
         | |- (_ ++ lit " When:</strong> ") ++ _ = _ => fail
         | |- ?a ++ (?b ++ ?c) = _ => rewrite (app_assoc a b c)
         end.

(** C6, as amended. The block of a sighting is a fixed text around its
    date.  When the timestamp string, with every [Z] replaced by
    [+00:00], is not parseable, the date shown is the raw string,
    verbatim; when it is parseable, the date shown is the parsed time
    formatted with [%Y-%m-%d %H:%M]. *)
Theorem date_shown_in_block (sighting : gmap (list N) json) :
  ∃ pre post, ∀ raw,
    let s := <[lit "obsDt" := JStr raw]> sighting in
    let normalised := Str.replace (ord "Z") (lit "+00:00") raw in
    (∀ e, fromisoformat normalised = Raise e →
          sighting_html s
          = (pre ++ lit " When:</strong> ") ++ raw ++ lit "</p>" ++ post)
    ∧ (∀ dt, fromisoformat normalised = Ok dt →
             sighting_html s
             = (pre ++ lit " When:</strong> ")
               ++ strftime dt (lit "%Y-%m-%d %H:%M") ++ lit "</p>" ++ post).
Proof.
  eexists _, _. intros raw s normalised. subst s normalised.
  unfold sighting_html. cbv zeta.
  rewrite get_insert_eq, !get_insert_ne by (by vm_compute).
  assert (∀ rest, lit "</p>
                    <p style=" ++ rest
                  = lit "</p>" ++ lit "
                    <p style=" ++ rest) as Hsplit by reflexivity.
  split.
  - intros e He. rewrite (format_date_raw _ _ He). cbn [fmt].
    match goal with |- _ = ?rhs => set (shape := rhs) end.
    rewrite !Hsplit. focus_on_date. subst shape. reflexivity.
  - intros dt Hdt. rewrite (format_date_parsed _ _ Hdt). cbn [fmt].
    match goal with |- _ = ?rhs => set (shape := rhs) end.
    rewrite !Hsplit. focus_on_date. subst shape. reflexivity.
Qed.

End Pipeline.

(** *** The recipients *)

(** C7. The recipients are the parts of the configured string between its
    commas, each with the whitespace at its two ends removed; the string
    "a@x.com, b@y.com" gives the two addresses a@x.com and b@y.com. *)
Theorem receiver_list_split_and_trimmed (receiver_emails : list N) :
  let parts := Str.split (ord ",") receiver_emails in
  Str.join [ord ","] parts = receiver_emails
  ∧ Forall (λ p, ord "," ∉ p) parts
  ∧ Forall2 (λ p a, trimmed a
                    ∧ ∃ l t, all_space l ∧ all_space t ∧ p = l ++ a ++ t)
            parts (receiver_list receiver_emails)
  ∧ receiver_list (lit "a@x.com, b@y.com") = [lit "a@x.com"; lit "b@y.com"].
Proof.
  cbv zeta. split; [apply join_split|]. split; [apply split_no_sep|].
  split; [|by vm_compute].
  unfold receiver_list. apply Forall2_fmap_r, Forall_Forall2_diag, Forall_forall.
  intros p _. apply strip_spec.
Qed.

(** ** The properties on concrete inputs *)

Section Examples.

#[local] Existing Instance cpython.

Import Fixture.

(** Twelve sightings: ten blocks. *)
Lemma format_email_body_blocks_example :
  Forall plain_fields (take 10 (replicate 12 snowy_owl))
  ∧ occurrences block_opening
      (_format_email_body notifier (replicate 12 snowy_owl)) = 10.
Proof.
  assert (plain_fields snowy_owl) as Hplain.
  { repeat split; refine (bool_decide_unpack _ _); vm_compute; exact I. }
  assert (Forall plain_fields (take 10 (replicate 12 snowy_owl))) as Hall.
  { simpl. repeat (apply Forall_cons_2; [exact Hplain|]). apply Forall_nil_2. }
  split; [done|].
  exact (proj2 (format_email_body_blocks notifier (replicate 12 snowy_owl))
           Hall).
Defined.

(** Nothing upstream: no alert, and nothing sent. *)
Lemma run_nothing_fetched_example :
  outcome (get_notable_sightings nothing_upstream notifier) = Ok []
  ∧ outcome (run nothing_upstream notifier)
    = Ok {| alert := false; sightings_count := 0; sightings := [] |}
  ∧ Forall (λ ev, ¬ is_smtp ev) (trace (run nothing_upstream notifier)).
Proof.
  split; [vm_compute; reflexivity|].
  destruct (run_nothing_fetched nothing_upstream notifier) as (Hr & _ & Ht);
    [vm_compute; reflexivity|].
  by split.
Defined.

(** One sighting and no credentials: the alert is raised, nothing is
    sent. *)
Lemma run_without_credentials_example :
  getenv no_credentials (lit "SENDER_EMAIL") = None
  ∧ configured_port no_credentials = Ok 587%Z
  ∧ outcome (run no_credentials notifier)
    = Ok {| alert := true; sightings_count := 1; sightings := [snowy_owl] |}
  ∧ Forall (λ ev, ¬ is_smtp ev) (trace (run no_credentials notifier)).
Proof.
  split; [vm_compute; reflexivity|]. split; [vm_compute; reflexivity|].
  apply (run_without_credentials no_credentials notifier [snowy_owl] 587).
  - done.
  - vm_compute; reflexivity.
  - left. vm_compute. reflexivity.
  - vm_compute; reflexivity.
Defined.

(** One sighting, no credentials and [SMTP_PORT=abc]: [int] raises
    before the credentials are looked at, and [run] returns nothing. *)
Lemma run_raises_on_bad_port :
  outcome (get_notable_sightings bad_port_world notifier) = Ok [snowy_owl]
  ∧ getenv bad_port_world (lit "SENDER_EMAIL") = None
  ∧ getenv bad_port_world (lit "SENDER_PASSWORD") = None
  ∧ getenv bad_port_world (lit "RECEIVER_EMAIL") = None
  ∧ outcome (run bad_port_world notifier)
    = Raise (Exn "ValueError"
               (lit "invalid literal for int() with base 10: 'abc'")).
Proof. repeat split; vm_compute; reflexivity. Qed.

(** A timeout gives the result of an empty answer. *)
Lemma fetch_error_like_empty_example :
  fetch_error unreachable notifier (Exn "ConnectTimeout" (lit "timed out"))
  ∧ fetch_returns nothing_upstream notifier []
  ∧ outcome (run unreachable notifier)
    = outcome (run nothing_upstream notifier)
  ∧ outcome (run unreachable notifier)
    = Ok {| alert := false; sightings_count := 0; sightings := [] |}.
Proof.
  assert (fetch_error unreachable notifier
            (Exn "ConnectTimeout" (lit "timed out"))) as Herr.
  { by apply transport_error. }
  assert (fetch_returns nothing_upstream notifier []) as Hempty.
  { eexists. split; [reflexivity|]. split; [cbn; lia | reflexivity]. }
  split; [done|]. split; [done|].
  exact (fetch_error_like_empty unreachable nothing_upstream notifier _
           Herr Hempty).
Defined.

(** A status 500 is a fetch error as well. *)
Lemma server_error_is_fetch_error :
  fetch_error failing_upstream notifier
    (Exn "HTTPError" (lit "500 Server Error"))
  ∧ outcome (run failing_upstream notifier) = Ok no_alert.
Proof.
  split; [|vm_compute; reflexivity].
  eapply (http_status_error failing_upstream notifier
            (Response 500 _ _)); [reflexivity | cbn; lia].
Qed.

(** A refused login: the error is logged, the alert is returned. *)
Lemma smtp_failure_absorbed_example :
  Exists smtp_raised (trace (send_email_notification refusing notifier [snowy_owl]))
  ∧ outcome (send_email_notification refusing notifier [snowy_owl]) = Ok tt
  ∧ outcome (run refusing notifier)
    = Ok {| alert := true; sightings_count := 1; sightings := [snowy_owl] |}.
Proof.
  assert (Exists smtp_raised
            (trace (send_email_notification refusing notifier [snowy_owl])))
    as Hraised.
  { vm_compute. apply Exists_cons_tl, Exists_cons_tl, Exists_cons_hd. exact I. }
  split; [done|].
  destruct (smtp_failure_absorbed refusing notifier [snowy_owl])
    as (Hsend & _ & Hrun); [done | done |].
  split; [done|]. apply Hrun. vm_compute. reflexivity.
Defined.

(** The result of a run that notified satisfies the invariant. *)
Lemma run_result_invariant_example :
  outcome (run working notifier) = Ok (alert_for [snowy_owl])
  ∧ (alert (alert_for [snowy_owl]) = true
     ↔ (0 < sightings_count (alert_for [snowy_owl]))%Z)
  ∧ sightings_count (alert_for [snowy_owl])
    = len (sightings (alert_for [snowy_owl])).
Proof.
  assert (outcome (run working notifier) = Ok (alert_for [snowy_owl])) as Hrun.
  { vm_compute. reflexivity. }
  split; [done|].
  exact (run_result_invariant working notifier _ Hrun).
Defined.

(** The empty list with everything configured: one log line, no
    session. *)
Lemma send_nothing_for_empty_example :
  configured_port working = Ok 587%Z
  ∧ outcome (send_email_notification working notifier []) = Ok tt
  ∧ Forall (λ ev, ¬ is_smtp ev)
           (trace (send_email_notification working notifier [])).
Proof.
  destruct (send_nothing_for_empty working notifier) as [Hquiet Hreturns].
  assert (configured_port working = Ok 587%Z) as Hport.
  { vm_compute. reflexivity. }
  split; [done|]. split; [by apply (Hreturns 587%Z) | done].
Defined.

(** The empty list, everything configured and [SMTP_PORT=abc]: the
    sender raises instead of returning. *)
Lemma send_raises_on_bad_port :
  truthy (getenv bad_port_with_credentials (lit "SENDER_EMAIL"))
  = Some (lit "me@x.com")
  ∧ truthy (getenv bad_port_with_credentials (lit "SENDER_PASSWORD"))
    = Some (lit "secret")
  ∧ truthy (getenv bad_port_with_credentials (lit "RECEIVER_EMAIL"))
    = Some (lit "a@x.com, b@y.com")
  ∧ send_email_notification bad_port_with_credentials notifier []
    = ([], Raise (Exn "ValueError"
                    (lit "invalid literal for int() with base 10: 'abc'"))).
Proof. repeat split; vm_compute; reflexivity. Qed.

(** A timestamp that does not parse is shown as it is, one that parses
    is shown reformatted, in the same surrounding text. *)
Lemma date_shown_in_block_example :
  ∃ pre post,
    sighting_html (<[lit "obsDt" := JStr (lit "yesterday")]> snowy_owl)
    = (pre ++ lit " When:</strong> ") ++ lit "yesterday" ++ lit "</p>" ++ post
    ∧ sighting_html
        (<[lit "obsDt" := JStr (lit "2024-01-15T10:30:00Z")]> snowy_owl)
      = (pre ++ lit " When:</strong> ")
        ++ lit "2024-01-15 10:30" ++ lit "</p>" ++ post.
Proof.
  destruct (date_shown_in_block snowy_owl) as (pre & post & Hshown).
  exists pre, post. split.
  - destruct (Hshown (lit "yesterday")) as [Hraw _].
    eapply Hraw. vm_compute. reflexivity.
  - destruct (Hshown (lit "2024-01-15T10:30:00Z")) as [_ Hparsed].
    apply (Hparsed (Datetime 2024 1 15 10 30 0 0 (Some 0%Z))).
    vm_compute; reflexivity.
Defined.

(** The timestamp [2024-01-01Z:30] has no trailing [Z], and is not
    parseable as it stands; the formatter replaces the inner [Z], parses
    [2024-01-01+00:00:30], and shows [2024-01-01 00:00] in place of the
    raw string. *)
Lemma inner_Z_is_replaced :
  odd_date !! lit "obsDt" = Some (JStr (lit "2024-01-01Z:30"))
  ∧ replace_trailing_Z (lit "2024-01-01Z:30") = lit "2024-01-01Z:30"
  ∧ fromisoformat (replace_trailing_Z (lit "2024-01-01Z:30"))
    = Raise (Exn "ValueError"
               (lit "Invalid isoformat string: '2024-01-01Z:30'"))
  ∧ format_date (JStr (lit "2024-01-01Z:30")) = JStr (lit "2024-01-01 00:00")
  ∧ occurs (lit " When:</strong> 2024-01-01 00:00</p>")
           (sighting_html odd_date) = true
  ∧ occurs (lit "2024-01-01Z:30") (sighting_html odd_date) = false.
Proof. repeat split; vm_compute; reflexivity. Qed.

End Examples.

(** ** Further properties: the fetches, the constructor, the entry point *)

Section Script_properties.

Context {python : PyLib} {python_float : PyFloat}.
Implicit Types (w : world) (self : BirdNotifier).
Implicit Types (l : list (gmap (list N) json)) (e : exn).

Lemma fetch_error_not_returns w self e l :
  fetch_error w self e → fetch_returns w self l → False.
Proof.
  intros Herr (r & Hget & Hst & Hbody).
  destruct Herr as [e' Hget' | r' Hget' Hst' | r' e' Hget' Hst' Hbody'];
    rewrite Hget in Hget'; simplify_eq; [tauto|].
  rewrite Hbody in Hbody'. discriminate.
Qed.

Lemma get_notable_sightings_trace w self :
  ∃ line, trace (get_notable_sightings w self)
          = [HttpGet (notable_request self); Printed line].
Proof.
  destruct (fetch_cases w self) as [[e He]|[l Hl]].
  - rewrite (get_notable_sightings_error _ _ _ He). by eexists.
  - rewrite (get_notable_sightings_returns _ _ _ Hl). by eexists.
Qed.

(** X1. The fetch sends one request and writes one log line; it never
    raises.  It returns a sighting exactly when the server returned that
    list, and the empty list both for an empty answer and for a fetch
    that failed. *)
Theorem get_notable_sightings_outcome w self :
  (∃ line, trace (get_notable_sightings w self)
           = [HttpGet (notable_request self); Printed line])
  ∧ (∀ s l, outcome (get_notable_sightings w self) = Ok (s :: l)
            ↔ fetch_returns w self (s :: l))
  ∧ (outcome (get_notable_sightings w self) = Ok []
     ↔ (∃ e, fetch_error w self e) ∨ fetch_returns w self []).
Proof.
  destruct (fetch_cases w self) as [[e He]|[l' Hl']].
  - rewrite (get_notable_sightings_error _ _ _ He). cbn [trace outcome fst snd].
    split; [by eexists|]. split.
    + intros s l. split; [done|].
      intros Hret. destruct (fetch_error_not_returns _ _ _ _ He Hret).
    + split; [|done]. intros _. left. by exists e.
  - rewrite (get_notable_sightings_returns _ _ _ Hl').
    cbn [trace outcome fst snd].
    assert (∀ l, fetch_returns w self l → l = l') as Hsame.
    { intros l (r & Hget & _ & Hbody). destruct Hl' as (r' & Hget' & _ & Hbody').
      rewrite Hget in Hget'. simplify_eq. rewrite Hbody in Hbody'. by simplify_eq. }
    split; [by eexists|]. split.
    + intros s l. split; [by intros [= ->] | by intros ->%Hsame].
    + split; [intros [= ->]; by right|].
      intros [[e He]|Hret]; [|by rewrite (Hsame _ Hret)].
      destruct (fetch_error_not_returns _ _ _ _ He Hl').
Qed.

(** X2. The species lookup sends one request and is silent; it never
    raises.  It returns a record exactly when the status is no error and
    the body decodes to a list that starts with this record; in every
    other case it returns [None]. *)
Theorem get_species_info_outcome w self code :
  trace (get_species_info w self code) = [HttpGet (taxonomy_request self code)]
  ∧ (∃ o, outcome (get_species_info w self code) = Ok o)
  ∧ ∀ d, outcome (get_species_info w self code) = Ok (Some d)
         ↔ ∃ r rest, requests_get w (taxonomy_request self code) = Ok r
                     ∧ ¬ (400 ≤ status_code r < 600)%Z
                     ∧ json_body r = Ok (d :: rest).
Proof.
  unfold get_species_info, http_get, taxonomy_request, ok. cbv zeta.
  destruct (requests_get w _) as [r|e] eqn:Hget; cbn [bind try_except].
  - destruct ((400 <=? status_code r) && (status_code r <? 600))%Z eqn:Hst;
      cbn [negb].
    + apply status_is_error in Hst. cbn. split; [done|]. split; [by eexists|].
      intros d. split; [done|]. intros (r' & rest & [= <-] & Hok & _). tauto.
    + apply not_true_iff_false in Hst. rewrite status_is_error in Hst.
      destruct (json_body r) as [[|d' rest]|e] eqn:Hbody; cbn;
        (split; [done|]); (split; [by eexists|]); intros d.
      * split; [done|]. intros (r' & rest & [= <-] & _ & Hb).
        rewrite Hbody in Hb. discriminate.
      * split.
        -- intros [= <-]. by exists r, rest.
        -- intros (r' & rest' & [= <-] & _ & Hb).
           rewrite Hbody in Hb. by simplify_eq.
      * split; [done|]. intros (r' & rest & [= <-] & _ & Hb).
        rewrite Hbody in Hb. discriminate.
  - cbn. split; [done|]. split; [by eexists|].
    intros d. split; [done|]. by intros (r' & rest & [=] & _).
Qed.


(** X4. The result of [run] holds every sighting the fetch returned, in
    the order of the fetch: nothing is filtered out, and the cut to ten
    of the email body does not touch the result. *)
Theorem run_reports_all_sightings w self l r :
  outcome (get_notable_sightings w self) = Ok l →
  outcome (run w self) = Ok r →
  sightings r = l ∧ sightings_count r = len l ∧ alert r = bool_decide (l ≠ []).
Proof.
  destruct (get_notable_sightings w self) as [t r'] eqn:Hgns.
  cbn [outcome snd]. intros ->.
  destruct l as [|s l].
  - rewrite (run_no_sightings _ _ _ Hgns). by intros [= <-].
  - rewrite (run_sightings _ _ _ _ _ Hgns). cbn [snd].
    destruct (outcome (send_email_notification w self (s :: l))); [|done].
    by intros [= <-].
Qed.

Ltac break_cases :=
  repeat match goal with
         | Hc : _ ∧ _ |- _ => destruct Hc
         | Hc : _ ∨ _ |- _ => destruct Hc
         | Hc : ∃ _, _ |- _ => destruct Hc
         end;
  simplify_eq.


(** X5. The constructor prints nothing.  It returns a notifier exactly
    when the four numeric settings convert, with the converted values,
    the API key as the environment has it (or [None]) and the fixed base
    URL; otherwise it raises the exception of the first conversion that
    fails, in the order latitude, longitude, radius, days. *)
Theorem init_outcome w :
  trace (__init__ w) = []
  ∧ (∀ n, outcome (__init__ w) = Ok n
          ↔ configured_latitude w = Ok (latitude n)
            ∧ configured_longitude w = Ok (longitude n)
            ∧ configured_radius w = Ok (radius_km n)
            ∧ configured_days w = Ok (days_back n)
            ∧ ebird_api_key n = getenv w (lit "EBIRD_API_KEY")
            ∧ base_url n = lit "https://api.ebird.org/v2")
  ∧ (∀ e, outcome (__init__ w) = Raise e
          ↔ configured_latitude w = Raise e
            ∨ (∃ a, configured_latitude w = Ok a)
              ∧ (configured_longitude w = Raise e
                 ∨ (∃ b, configured_longitude w = Ok b)
                   ∧ (configured_radius w = Raise e
                      ∨ (∃ c, configured_radius w = Ok c)
                        ∧ configured_days w = Raise e))).
Proof.
  unfold __init__, configured_latitude, configured_longitude,
    configured_radius, configured_days. cbv zeta.
  destruct (float_of_str (getenv_or w (lit "LATITUDE") _)) as [a|e1];
    [destruct (float_of_str (getenv_or w (lit "LONGITUDE") _)) as [b|e2];
     [destruct (int_of_str (getenv_or w (lit "RADIUS_KM") _)) as [c|e3];
      [destruct (int_of_str (getenv_or w (lit "DAYS_BACK") _)) as [d|e4]|]|]|];
    cbn; (split; [reflexivity|]); (split; [intros [] | intros e]); cbn;
    (split; intros Hcase; break_cases; eauto 12).
Qed.





(** *** The SMTP session *)

Lemma stage_after_app st t1 t2 :
  stage_after st (t1 ++ t2) = stage_after st t1 ≫= λ st', stage_after st' t2.
Proof.
  revert st. induction t1 as [|ev t1 IH]; intros st; [done|].
  cbn [app stage_after]. destruct (after st ev); [apply IH | done].
Qed.

Lemma stage_after_quiet st t :
  Forall (λ ev, ¬ is_smtp ev) t → stage_after st t = Some st.
Proof.
  induction 1 as [|ev t Hev _ IH]; [done|].
  cbn [stage_after]. destruct ev; cbn in *; [done | done | tauto].
Qed.

Lemma send_follows_protocol w self l :
  stage_after Idle (trace (send_email_notification w self l)) = Some Idle
  ∨ stage_after Idle (trace (send_email_notification w self l)) = Some Ended.
Proof.
  unfold send_email_notification, smtp_call. cbv zeta.
  destruct (int_of_str _) as [port|e]; cbn [lift bind trace fst];
    [|by left].
  destruct (truthy _) as [sender|]; [|by left].
  destruct (truthy _) as [password|]; [|by left].
  destruct (truthy _) as [receivers|]; [|by left].
  destruct l as [|s l]; [by left|].
  destruct (smtp w (SmtpConnect _ _)) as [e1|]; [by right|].
  destruct (smtp w SmtpStarttls) as [e2|]; [by right|].
  destruct (smtp w (SmtpLogin _ _)) as [e3|]; [by right|].
  destruct (smtp w (SmtpSendMessage _ _ _ _)) as [e4|]; [by right|].
  destruct (smtp w SmtpQuit) as [e5|]; by right.
Qed.

Lemma count_events_app p t1 t2 :
  count_events p (t1 ++ t2) = count_events p t1 + count_events p t2.
Proof. induction t1 as [|ev t1 IH]; [done|]. cbn. rewrite IH. lia. Qed.

Ltac count_up :=
  cbn [count_events requested omap list_omap is_send_message Nat.add
       trace fst snd print bind try_except app]; (reflexivity || lia).

Lemma send_counts w self l :
  requested (trace (send_email_notification w self l)) = []
  ∧ count_events is_send_message (trace (send_email_notification w self l)) ≤ 1.
Proof.
  unfold send_email_notification, smtp_call. cbv zeta.
  destruct (int_of_str _) as [port|e]; cbn [lift bind trace fst];
    [|split; count_up].
  destruct (truthy _) as [sender|]; [|split; count_up].
  destruct (truthy _) as [password|]; [|split; count_up].
  destruct (truthy _) as [receivers|]; [|split; count_up].
  destruct l as [|s l]; [split; count_up|].
  destruct (smtp w (SmtpConnect _ _)) as [e1|]; [split; count_up|].
  destruct (smtp w SmtpStarttls) as [e2|]; [split; count_up|].
  destruct (smtp w (SmtpLogin _ _)) as [e3|]; [split; count_up|].
  destruct (smtp w (SmtpSendMessage _ _ _ _)) as [e4|]; [split; count_up|].
  destruct (smtp w SmtpQuit) as [e5|]; split; count_up.
Qed.

(** The trace of [run]: the banner and the fetch, then nothing more or
    the alert line and the trace of the sender. *)
Lemma run_trace w self :
  ∃ quiet, Forall (λ ev, ¬ is_smtp ev) quiet
    ∧ requested quiet = [notable_request self]
    ∧ count_events is_send_message quiet = 0
    ∧ (trace (run w self) = quiet
       ∨ ∃ s l, trace (run w self)
                = quiet ++ trace (send_email_notification w self (s :: l))).
Proof.
  destruct (get_notable_sightings_trace w self) as [line Ht].
  destruct (get_notable_sightings_total w self) as [l Hl].
  destruct (get_notable_sightings w self) as [t r] eqn:Hgns.
  cbn [outcome trace fst snd] in *. subst t r.
  destruct l as [|s l].
  - rewrite (run_no_sightings _ _ _ Hgns). cbn [trace fst].
    eexists. split; [|split; [|split; [|by left]]].
    + unfold run_banner. repeat constructor; cbn; tauto.
    + reflexivity.
    + reflexivity.
  - rewrite (run_sightings _ _ _ _ _ Hgns). cbn [trace fst].
    match goal with
    | |- context [run_banner self ++ ?t ++ [?p] ++ _] =>
        exists (run_banner self ++ t ++ [p])
    end.
    split; [|split; [|split]].
    + unfold run_banner. repeat constructor; cbn; tauto.
    + reflexivity.
    + reflexivity.
    + right. exists s, l. by rewrite <- !app_assoc.
Qed.

Lemma run_accepted w self : is_Some (stage_after Idle (trace (run w self))).
Proof.
  destruct (run_trace w self) as (quiet & Hquiet & _ & _ & [-> | (s & l & ->)]).
  - rewrite (stage_after_quiet _ _ Hquiet). by eexists.
  - rewrite stage_after_app, (stage_after_quiet _ _ Hquiet).
    change (is_Some (stage_after Idle
                       (trace (send_email_notification w self (s :: l))))).
    destruct (send_follows_protocol w self (s :: l)) as [-> | ->]; by eexists.
Qed.

(** X8. The SMTP calls of a run come in the order connect, STARTTLS,
    login, send, quit, each one only after the one before it succeeded.
    A run opens no session at all, or one session that ends with [quit]
    or at the first call that fails. *)
Theorem run_follows_smtp_protocol w self :
  stage_after Idle (trace (run w self)) = Some Idle
  ∨ stage_after Idle (trace (run w self)) = Some Ended.
Proof.
  destruct (run_trace w self) as (quiet & Hquiet & _ & _ & [-> | (s & l & ->)]).
  - left. by apply stage_after_quiet.
  - rewrite stage_after_app, (stage_after_quiet _ _ Hquiet).
    apply send_follows_protocol.
Qed.

Lemma reaches_secured st pre :
  stage_after st pre = Some Secured →
  st = Secured ∨ Smtp SmtpStarttls None ∈ pre.
Proof.
  revert st. induction pre as [|ev pre IH]; intros st; cbn [stage_after].
  - intros [= ->]. by left.
  - destruct (after st ev) as [st'|] eqn:Hev; [|done].
    intros [-> | Hin]%IH; [|right; by apply list_elem_of_further].
    destruct ev as [line|r|op err]; cbn in Hev; [left; congruence ..|].
    right. destruct st, op, err; simplify_eq. apply list_elem_of_here.
Qed.

Lemma reaches_authenticated st pre :
  stage_after st pre = Some Authenticated →
  st = Authenticated ∨ ∃ user password, Smtp (SmtpLogin user password) None ∈ pre.
Proof.
  revert st. induction pre as [|ev pre IH]; intros st; cbn [stage_after].
  - intros [= ->]. by left.
  - destruct (after st ev) as [st'|] eqn:Hev; [|done].
    intros [-> | (user & password & Hin)]%IH;
      [|right; exists user, password; by apply list_elem_of_further].
    destruct ev as [line|r|op err]; cbn in Hev; [left; congruence ..|].
    right. destruct st, op, err; simplify_eq.
    eexists _, _. apply list_elem_of_here.
Qed.

(** X9. The password is sent only over a secured connection: every login
    of a run comes after a STARTTLS that succeeded, and every message
    after a login that succeeded. *)
Theorem credentials_only_after_starttls w self :
  (∀ pre user password err post,
     trace (run w self) = pre ++ Smtp (SmtpLogin user password) err :: post →
     Smtp SmtpStarttls None ∈ pre)
  ∧ (∀ pre sender to subject body err post,
       trace (run w self)
       = pre ++ Smtp (SmtpSendMessage sender to subject body) err :: post →
       ∃ user password, Smtp (SmtpLogin user password) None ∈ pre).
Proof.
  pose proof (run_accepted w self) as Hproto.
  split.
  - intros pre user password err post Htrace.
    rewrite Htrace, stage_after_app in Hproto.
    destruct (stage_after Idle pre) as [st|] eqn:Hpre; [|by destruct Hproto].
    cbn in Hproto. destruct st; try by destruct Hproto.
    by destruct (reaches_secured _ _ Hpre).
  - intros pre sender to subject body err post Htrace.
    rewrite Htrace, stage_after_app in Hproto.
    destruct (stage_after Idle pre) as [st|] eqn:Hpre; [|by destruct Hproto].
    cbn in Hproto. destruct st; try by destruct Hproto.
    by destruct (reaches_authenticated _ _ Hpre).
Qed.

(** X10. A run sends exactly one HTTP request, the one for the notable
    sightings (the species lookup is never called), and at most one
    email message: nothing is retried. *)
Theorem run_one_request_one_message w self :
  requested (trace (run w self)) = [notable_request self]
  ∧ count_events is_send_message (trace (run w self)) ≤ 1.
Proof.
  destruct (run_trace w self)
    as (quiet & _ & Hget & Hmsg & [-> | (s & l & ->)]).
  - split; [done | lia].
  - destruct (send_counts w self (s :: l)) as [Hget' Hmsg'].
    unfold requested in *. rewrite omap_app, Hget, Hget', count_events_app.
    split; [done | lia].
Qed.


(** X12. A credential set to the empty string counts as missing: with
    a port that reads as an integer, the sender logs that the
    credentials are not configured and does nothing else. *)
Theorem empty_setting_counts_as_missing w self l port :
  configured_port w = Ok port →
  getenv w (lit "SENDER_EMAIL") = Some []
  ∨ getenv w (lit "SENDER_PASSWORD") = Some []
  ∨ getenv w (lit "RECEIVER_EMAIL") = Some [] →
  send_email_notification w self l
  = ([Printed (lit "Email credentials not configured")], Ok tt).
Proof.
  unfold configured_port, send_email_notification. cbv zeta.
  intros -> Hempty. cbn [lift bind].
  destruct Hempty as [-> | [-> | ->]];
    change (truthy (Some [])) with (@None (list N)).
  - reflexivity.
  - by destruct (truthy _).
  - destruct (truthy _); [by destruct (truthy _) | done].
Qed.

Lemma after_failure st op e st' :
  after st (Smtp op (Some e)) = Some st' → st' = Ended.
Proof. destruct st, op; cbn; congruence. Qed.

Lemma ended_is_final t st :
  stage_after Ended t = Some st →
  st = Ended ∧ Forall (λ ev, ¬ is_smtp ev) t.
Proof.
  induction t as [|ev t IH]; cbn [stage_after].
  - intros [= <-]. by split.
  - destruct ev as [line|r|op err]; cbn [after].
    + intros [-> Hquiet]%IH. split; [done|]. constructor; [tauto | done].
    + intros [-> Hquiet]%IH. split; [done|]. constructor; [tauto | done].
    + by destruct op.
Qed.

(** X13. After an SMTP call that failed the run makes no further SMTP
    call: nothing is retried, and a session that failed before [quit] is
    never closed with [quit]. *)
Theorem no_smtp_call_after_failure w self pre op e post :
  trace (run w self) = pre ++ Smtp op (Some e) :: post →
  Forall (λ ev, ¬ is_smtp ev) post
  ∧ (op ≠ SmtpQuit → ∀ err, Smtp SmtpQuit err ∉ trace (run w self)).
Proof.
  intros Htrace. destruct (run_accepted w self) as [final Hfinal].
  rewrite Htrace in Hfinal |- *. rewrite stage_after_app in Hfinal.
  destruct (stage_after Idle pre) as [st|] eqn:Hpre; [|done].
  change (stage_after st (Smtp op (Some e) :: post) = Some final) in Hfinal.
  cbn [stage_after] in Hfinal.
  destruct (after st (Smtp op (Some e))) as [st'|] eqn:Hafter; [|done].
  pose proof (after_failure _ _ _ _ Hafter) as ->.
  apply ended_is_final in Hfinal as [_ Hpost].
  split; [done|]. intros Hop err [Hin | Hin]%elem_of_app.
  - apply list_elem_of_split in Hin as (p1 & p2 & ->).
    rewrite stage_after_app in Hpre.
    destruct (stage_after Idle p1) as [s1|]; [|done].
    change (stage_after s1 (Smtp SmtpQuit err :: p2) = Some st) in Hpre.
    cbn [stage_after] in Hpre.
    destruct (after s1 (Smtp SmtpQuit err)) as [s2|] eqn:Hquit; [|done].
    assert (s2 = Ended) as ->.
    { destruct s1; cbn in Hquit; congruence. }
    apply ended_is_final in Hpre as [-> _]. by destruct op.
  - apply elem_of_cons in Hin as [[= <-] | Hin]; [done|].
    rewrite Forall_forall in Hpost. by apply (Hpost _ Hin).
Qed.

End Script_properties.

(** ** Further properties: the formatter and the recipients *)

Section Formatter_properties.

Context {python : PyLib}.
Implicit Types (self : BirdNotifier) (s : gmap (list N) json).

(** X14. The document depends on the first ten sightings and on the
    number of sightings only: what comes after the tenth sighting is
    counted in the header and shown nowhere. *)
Theorem body_ignores_later_sightings self
    (l l' : list (gmap (list N) json)) :
  take 10 l = take 10 l' → length l = length l' →
  _format_email_body self l = _format_email_body self l'.
Proof.
  intros Htake Hlen. unfold _format_email_body, header_html, len. cbv zeta.
  by rewrite Htake, Hlen.
Qed.

Lemma get_union_default s (d : gmap (list N) json) key v :
  d !! key = Some v → get (s ∪ d) key v = get s key v.
Proof.
  intros Hd. unfold get. rewrite lookup_union, Hd.
  by destruct (s !! key).
Qed.

(** X15. A sighting that lacks keys is shown as the sighting with the
    defaults filled in: [Unknown species], an empty scientific name,
    [Unknown location], an empty date, a count of 1, and latitude and
    longitude 0.  Keys the sighting has are never overridden. *)
Theorem missing_keys_take_defaults s :
  sighting_html s = sighting_html (s ∪ sighting_defaults).
Proof.
  unfold sighting_html. cbv zeta.
  rewrite !get_union_default by (vm_compute; reflexivity).
  reflexivity.
Qed.

(** Brings the text before [x] to the front. *)
Ltac focus_on x :=
  repeat lazymatch goal with
         | |- _ ++ (x ++ _) = _ => fail
         | |- ?a ++ (?b ++ ?c) = _ => rewrite (app_assoc a b c)
         end.

Ltac hole_in_block x :=
  unfold sighting_html; cbv zeta;
  repeat (rewrite get_insert_eq || rewrite get_insert_ne by (by vm_compute));
  cbn [fmt];
  let shape := fresh "shape" in
  match goal with |- _ = ?rhs => set (shape := rhs) end;
  rewrite <- ?app_assoc;
  repeat match goal with Hsplit : ∀ rest, _ ++ rest = _ |- _ =>
           rewrite !Hsplit; clear Hsplit end;
  focus_on x; subst shape; reflexivity.

(** X16. The common name, the scientific name and the location name go
    into the block as they are, between fixed texts that do not depend
    on them: nothing is escaped, so markup in a name is markup in the
    email. *)
Theorem text_fields_verbatim s :
  (∃ pre post, ∀ text,
     sighting_html (<[lit "comName" := JStr text]> s)
     = (pre ++ lit ">") ++ text ++ lit "</h3>" ++ post)
  ∧ (∃ pre post, ∀ text,
       sighting_html (<[lit "sciName" := JStr text]> s)
       = (pre ++ lit ">") ++ text ++ lit "</p>" ++ post)
  ∧ (∃ pre post, ∀ text,
       sighting_html (<[lit "locName" := JStr text]> s)
       = (pre ++ lit " Location:</strong> ") ++ text ++ lit "</p>" ++ post).
Proof.
  split; [|split].
  - eexists _, _. intros text.
    assert (∀ rest, lit "</h3>
                    <p style=" ++ rest
                    = lit "</h3>" ++ lit "
                    <p style=" ++ rest) as Hsplit by reflexivity.
    hole_in_block text.
  - eexists _, _. intros text.
    assert (∀ rest, lit "</p>
                    <p style=" ++ rest
                    = lit "</p>" ++ lit "
                    <p style=" ++ rest) as Hsplit by reflexivity.
    hole_in_block text.
  - eexists _, _. intros text.
    assert (∀ rest, lit "</p>
                    <p style=" ++ rest
                    = lit "</p>" ++ lit "
                    <p style=" ++ rest) as Hsplit by reflexivity.
    hole_in_block text.
Qed.

(** X17. The count line shows the count as it is, followed by
    [individual], with an [s] exactly when the count differs from 1 as
    Python compares ([True] and [1.0] equal 1). *)
Theorem count_line s :
  ∃ pre post, ∀ v,
    sighting_html (<[lit "howMany" := v]> s)
    = (pre ++ lit " Count:</strong> ") ++ fmt v ++ lit " individual"
      ++ (if ne_one v then lit "s" else []) ++ lit "</p>" ++ post.
Proof.
  eexists _, _. intros v.
  assert (∀ rest, lit "</p>
                    <p style=" ++ rest
                  = lit "</p>" ++ lit "
                    <p style=" ++ rest) as Hsplit by reflexivity.
  hole_in_block (fmt v).
Qed.

(** X18. The map link of a block is the Google Maps query for the
    latitude and the longitude of the sighting, in this order and
    separated by a comma. *)
Theorem map_link s :
  ∃ pre post, ∀ lat lng,
    sighting_html (<[lit "lat" := lat]> (<[lit "lng" := lng]> s))
    = ((pre ++ lit "<a href=") ++ dq)
      ++ lit "https://www.google.com/maps?q=" ++ fmt lat ++ lit ","
      ++ fmt lng ++ dq ++ post.
Proof.
  eexists _, _. intros lat lng.
  assert (∀ rest, lit ">
                        <a href=" ++ rest
                  = lit ">
                        " ++ lit "<a href=" ++ rest) as Hsplit by reflexivity.
  hole_in_block (lit "https://www.google.com/maps?q=").
Qed.

(** X19. A timestamp that is not a string (a number, [null]) does not
    break the formatter: the value is shown as [str] prints it. *)
Theorem date_not_a_string_shown_as_is s :
  ∃ pre post, ∀ v, (∀ text, v ≠ JStr text) →
    sighting_html (<[lit "obsDt" := v]> s)
    = (pre ++ lit " When:</strong> ") ++ fmt v ++ lit "</p>" ++ post.
Proof.
  eexists _, _. intros v Hv.
  assert (∀ rest, lit "</p>
                    <p style=" ++ rest
                  = lit "</p>" ++ lit "
                    <p style=" ++ rest) as Hsplit by reflexivity.
  unfold sighting_html. cbv zeta.
  rewrite get_insert_eq, (format_date_not_a_string _ Hv).
  hole_in_block (fmt v).
Qed.

End Formatter_properties.

Lemma split_length sep (s : list N) :
  length (Str.split sep s) = S (length (filter (λ c, c = sep) s)).
Proof.
  induction s as [|c s IH]; [done|]. cbn [Str.split].
  destruct (N.eqb_spec c sep) as [->|Hne].
  - rewrite filter_cons_True by done. cbn [length]. by rewrite IH.
  - rewrite filter_cons_False by done.
    destruct (Str.split sep s) as [|p ps]; [done|]. exact IH.
Qed.

Lemma split_snoc_sep sep (s : list N) :
  Str.split sep (s ++ [sep]) = Str.split sep s ++ [[]].
Proof.
  induction s as [|c s IH]; cbn [app Str.split].
  - by rewrite N.eqb_refl.
  - rewrite IH. destruct (c =? sep)%N; [done|].
    pose proof (split_nonempty sep s). by destruct (Str.split sep s).
Qed.

(** X20. The recipient list has one entry more than the string has
    commas: empty parts are kept, so a string that ends with a comma
    gives an empty last address, which is counted and addressed like the
    others. *)
Theorem receiver_count (receiver_emails : list N) :
  length (receiver_list receiver_emails) = S (commas receiver_emails)
  ∧ last (receiver_list (receiver_emails ++ lit ",")) = Some [].
Proof.
  unfold receiver_list, commas. split.
  - by rewrite length_fmap, split_length.
  - change (lit ",") with [ord ","].
    rewrite split_snoc_sep, fmap_app.
    change (Str.strip <$> [[]]) with [@nil N]. apply last_snoc.
Qed.

(** ** The further properties on concrete inputs *)

Section Script_examples.

#[local] Existing Instance cpython.
#[local] Existing Instance cpython_float.

Import Fixture ScriptFixture.


(** Seven sightings upstream: all seven are in the result. *)
Lemma run_reports_all_sightings_example :
  outcome (get_notable_sightings seven_upstream notifier)
  = Ok (replicate 7 snowy_owl)
  ∧ outcome (run seven_upstream notifier) = Ok (alert_for (replicate 7 snowy_owl))
  ∧ sightings (alert_for (replicate 7 snowy_owl)) = replicate 7 snowy_owl
  ∧ sightings_count (alert_for (replicate 7 snowy_owl)) = 7%Z
  ∧ alert (alert_for (replicate 7 snowy_owl)) = true.
Proof.
  assert (outcome (get_notable_sightings seven_upstream notifier)
          = Ok (replicate 7 snowy_owl)) as Hfetch.
  { vm_compute. reflexivity. }
  assert (outcome (run seven_upstream notifier)
          = Ok (alert_for (replicate 7 snowy_owl))) as Hrun.
  { vm_compute. reflexivity. }
  split; [done|]. split; [done|].
  exact (run_reports_all_sightings seven_upstream notifier _ _ Hfetch Hrun).
Defined.

(** Only the API key is set: the defaults of the source.  A radius that
    is no number fails before the look-back is read. *)
Lemma init_outcome_example :
  outcome (__init__ key_only) = Ok notifier
  ∧ outcome (__init__ bad_radius)
    = Raise (Exn "ValueError"
               (lit "invalid literal for int() with base 10: 'far'")).
Proof.
  destruct (init_outcome key_only) as (_ & Hok & _).
  destruct (init_outcome bad_radius) as (_ & _ & Hraise).
  split.
  - apply Hok. repeat split; vm_compute; reflexivity.
  - apply Hraise. right. split; [eexists; vm_compute; reflexivity|].
    right. split; [eexists; vm_compute; reflexivity|].
    left. vm_compute. reflexivity.
Defined.



(** A working server: the login comes after STARTTLS. *)
Lemma credentials_only_after_starttls_example :
  ∃ pre post,
    trace (run working notifier)
    = pre ++ Smtp (SmtpLogin (lit "me@x.com") (lit "secret")) None :: post
    ∧ Smtp SmtpStarttls None ∈ pre.
Proof.
  exists (take 7 (trace (run working notifier))),
         (drop 8 (trace (run working notifier))).
  assert (trace (run working notifier)
          = take 7 (trace (run working notifier))
            ++ Smtp (SmtpLogin (lit "me@x.com") (lit "secret")) None
            :: drop 8 (trace (run working notifier))) as Htrace.
  { vm_compute. reflexivity. }
  split; [exact Htrace|].
  exact (proj1 (credentials_only_after_starttls working notifier)
           _ _ _ _ _ Htrace).
Defined.


(** [SENDER_PASSWORD] set to the empty string. *)
Lemma empty_setting_counts_as_missing_example :
  configured_port empty_password = Ok 587%Z
  ∧ getenv empty_password (lit "SENDER_PASSWORD") = Some []
  ∧ send_email_notification empty_password notifier [snowy_owl]
    = ([Printed (lit "Email credentials not configured")], Ok tt).
Proof.
  assert (configured_port empty_password = Ok 587%Z) as Hport.
  { vm_compute. reflexivity. }
  assert (getenv empty_password (lit "SENDER_PASSWORD") = Some []) as Hempty.
  { vm_compute. reflexivity. }
  split; [done|]. split; [done|].
  apply (empty_setting_counts_as_missing empty_password notifier _ 587 Hport).
  right. left. exact Hempty.
Defined.

(** A refused login: the error line follows, and no [quit]. *)
Lemma no_smtp_call_after_failure_example :
  ∃ pre,
    trace (run refusing notifier)
    = pre
      ++ Smtp (SmtpLogin (lit "me@x.com") (lit "secret"))
           (Some (Exn "SMTPAuthenticationError" (lit "(535, 'refused')")))
      :: [Printed (lit "Error sending email: (535, 'refused')")]
    ∧ Forall (λ ev, ¬ is_smtp ev)
        [Printed (lit "Error sending email: (535, 'refused')")]
    ∧ ∀ err, Smtp SmtpQuit err ∉ trace (run refusing notifier).
Proof.
  exists (take 7 (trace (run refusing notifier))).
  assert (trace (run refusing notifier)
          = take 7 (trace (run refusing notifier))
            ++ Smtp (SmtpLogin (lit "me@x.com") (lit "secret"))
                 (Some (Exn "SMTPAuthenticationError"
                          (lit "(535, 'refused')")))
            :: [Printed (lit "Error sending email: (535, 'refused')")])
    as Htrace.
  { vm_compute. reflexivity. }
  destruct (no_smtp_call_after_failure refusing notifier _ _ _ _ Htrace)
    as [Hpost Hquit].
  split; [exact Htrace|]. split; [exact Hpost|]. by apply Hquit.
Defined.

(** Eleven sightings that differ in the eleventh: the same document. *)
Lemma body_ignores_later_sightings_example :
  take 10 (replicate 10 snowy_owl ++ [odd_date])
  = take 10 (replicate 10 snowy_owl ++ [snowy_owl])
  ∧ _format_email_body notifier (replicate 10 snowy_owl ++ [odd_date])
    = _format_email_body notifier (replicate 10 snowy_owl ++ [snowy_owl]).
Proof.
  assert (take 10 (replicate 10 snowy_owl ++ [odd_date])
          = take 10 (replicate 10 snowy_owl ++ [snowy_owl])) as Htake.
  { reflexivity. }
  split; [done|].
  by apply body_ignores_later_sightings.
Defined.

(** A sighting with no key at all is shown as the defaults. *)
Lemma missing_keys_take_defaults_example :
  sighting_html bare = sighting_html sighting_defaults.
Proof.
  rewrite (missing_keys_take_defaults bare). unfold bare.
  by rewrite (left_id_L ∅ (∪)).
Defined.

(** A timestamp that is a number, and one that is [null]. *)
Lemma date_not_a_string_shown_as_is_example :
  ∃ pre post,
    sighting_html (<[lit "obsDt" := JInt 20240115]> snowy_owl)
    = (pre ++ lit " When:</strong> ") ++ Str.of_Z 20240115 ++ lit "</p>" ++ post
    ∧ sighting_html (<[lit "obsDt" := JNull]> snowy_owl)
      = (pre ++ lit " When:</strong> ") ++ lit "None" ++ lit "</p>" ++ post.
Proof.
  destruct (date_not_a_string_shown_as_is snowy_owl) as (pre & post & Hshown).
  exists pre, post. split.
  - by apply (Hshown (JInt 20240115)).
  - by apply (Hshown JNull).
Defined.

End Script_examples.
